(** * Student Management System (student.py): a shallow embedding

    The program keeps a roster of students in a Python list, loads it from
    and saves it to a CSV file, and edits it through console prompts.

    Conventions of the model.
    - Text is a [string] of 8-bit characters.  The model is exact on ASCII
      text; a character above 127 is left alone by [strip], [lower] and
      [upper] and is rejected by [int] and [float].
    - Python integers are [Z]; Python floats are the binary64 numbers of
      [PrimFloat].
    - An exception is a value of [exn]; a computation that may raise
      returns a [result].
    - The console is a list of input lines still to be read and a list of
      output items already written.  [input] on an exhausted console
      raises [EOFError], as Python does at end of file.
    - The list of students is passed in and handed back: the program
      mutates one shared list in place, and every [Student] object of the
      list is created by its own constructor call, so the objects are
      pairwise distinct. *)

From Stdlib Require Import ZArith List String Ascii Bool Lia.
From Stdlib Require Import DecimalString DecimalPos.
From Stdlib Require Import Floats.
Import ListNotations.

Local Open Scope string_scope.
Local Open Scope Z_scope.

(** ** Exceptions and results *)

Inductive exn : Type :=
| ValueError
| TypeError
| OverflowError
| StopIteration
| EOFError
| OSError
| CsvError.

(** Every exception of the model derives from Python's [Exception], which
    is what [except Exception] tests. *)
Definition is_Exception (e : exn) : bool := true.

Definition is_ValueError (e : exn) : bool :=
  match e with ValueError => true | _ => false end.

Inductive result (A : Type) : Type :=
| Ok (a : A)
| Raise (e : exn).

Arguments Ok {A} a.
Arguments Raise {A} e.

Definition bind {A B : Type} (r : result A) (k : A -> result B) : result B :=
  match r with
  | Ok a => k a
  | Raise e => Raise e
  end.

(** [try: r except <class>: handler] for a class given by its test. *)
Definition try_except {A : Type} (r : result A) (cls : exn -> bool)
    (handler : exn -> result A) : result A :=
  match r with
  | Ok a => Ok a
  | Raise e => if cls e then handler e else Raise e
  end.

(** ** Text *)

Definition code (c : ascii) : N := N_of_ascii c.

Definition between (lo hi : N) (c : ascii) : bool :=
  (N.leb lo (code c) && N.leb (code c) hi)%bool.

(** [str.isspace] on one ASCII character: tab, line feed, vertical tab,
    form feed, carriage return, the four separators 28..31 and the space. *)
Definition isspace (c : ascii) : bool :=
  (between 9 13 c || between 28 32 c)%bool.

(** The white space [int] and [float] skip around a number: the C locale's
    (tab, line feed, vertical tab, form feed, carriage return, space). *)
Definition c_isspace (c : ascii) : bool :=
  (between 9 13 c || N.eqb (code c) 32)%bool.

Definition is_upper (c : ascii) : bool := between 65 90 c.
Definition is_lower (c : ascii) : bool := between 97 122 c.
Definition is_digit (c : ascii) : bool := between 48 57 c.

Definition lower_char (c : ascii) : ascii :=
  if is_upper c then ascii_of_N (code c + 32) else c.

Definition upper_char (c : ascii) : ascii :=
  if is_lower c then ascii_of_N (code c - 32) else c.

Fixpoint map_string (f : ascii -> ascii) (s : string) : string :=
  match s with
  | EmptyString => EmptyString
  | String c r => String (f c) (map_string f r)
  end.

(** [str.lower] and [str.upper]. *)
Definition lower (s : string) : string := map_string lower_char s.
Definition upper (s : string) : string := map_string upper_char s.

Definition is_empty (s : string) : bool :=
  match s with EmptyString => true | String _ _ => false end.

Fixpoint lstrip_with (sp : ascii -> bool) (s : string) : string :=
  match s with
  | EmptyString => EmptyString
  | String c r => if sp c then lstrip_with sp r else s
  end.

Fixpoint rstrip_with (sp : ascii -> bool) (s : string) : string :=
  match s with
  | EmptyString => EmptyString
  | String c r =>
      let r' := rstrip_with sp r in
      if (sp c && is_empty r')%bool then EmptyString else String c r'
  end.

(** [str.strip] with no argument. *)
Definition strip (s : string) : string :=
  lstrip_with isspace (rstrip_with isspace s).

(** [a] is the beginning of [b]. *)
Fixpoint starts_with (a b : string) : bool :=
  match a with
  | EmptyString => true
  | String x a' =>
      match b with
      | EmptyString => false
      | String y b' => (Ascii.eqb x y && starts_with a' b')%bool
      end
  end.

(** [needle in hay] on text: [needle] occurs as a contiguous run. *)
Fixpoint py_in (needle hay : string) : bool :=
  match hay with
  | EmptyString => is_empty needle
  | String _ r => (starts_with needle hay || py_in needle r)%bool
  end.

(** Left-aligned padding, the format specification [:<w] on text. *)
Fixpoint spaces (n : nat) : string :=
  match n with
  | O => EmptyString
  | S k => String " " (spaces k)
  end.

Definition ljust (w : nat) (s : string) : string :=
  s ++ spaces (w - String.length s).

(** ** Integers and text *)

(** [str(n)] for an integer: decimal digits, a minus sign when negative. *)
Definition str_of_int (n : Z) : string :=
  NilZero.string_of_int (Z.to_int n).

Definition digit_val (c : ascii) : Z := Z.of_N (code c - 48).

(** The digits of an integer literal after its sign: decimal digits, where
    single underscores may stand between two digits.  [after_digit] tells
    whether the character just read was a digit. *)
Fixpoint int_digits (s : string) (acc : Z) (after_digit : bool) : option Z :=
  match s with
  | EmptyString => if after_digit then Some acc else None
  | String c r =>
      if is_digit c then int_digits r (10 * acc + digit_val c) true
      else if Ascii.eqb c "_" then
        if after_digit then int_digits r acc false else None
      else None
  end.

(** [int(s)] on text: surrounding white space is dropped, an optional sign
    is read, then the digits.  [None] stands for [ValueError].  The bound
    CPython puts on the number of digits it converts is not modelled. *)
Definition int_of_str (s : string) : option Z :=
  match lstrip_with c_isspace (rstrip_with c_isspace s) with
  | String "-" r => option_map Z.opp (int_digits r 0 false)
  | String "+" r => int_digits r 0 false
  | t => int_digits t 0 false
  end.

(** ** Floats and text *)

Definition pos_inf : float := PrimFloat.infinity.
Definition neg_inf : float := PrimFloat.neg_infinity.

(** The binary64 number nearest to [m * 10 ^ e10] (ties to even), for
    [0 <= m]; [neg] gives the sign.  A quotient is first cut to more than
    64 significant bits, with one more bit that tells whether the cut was
    exact, which rounds as the quotient itself does. *)
Definition float_of_decimal (neg : bool) (m e10 : Z) : float :=
  let sf :=
    if m =? 0 then S754_zero false
    else if 0 <=? e10 then binary_normalize prec emax (m * 10 ^ e10) 0 false
    else
      let q := 10 ^ (- e10) in
      let s := Z.max 0 (66 + Z.log2 q - Z.log2 m) in
      let n := m * 2 ^ s in
      binary_normalize prec emax
        (2 * (n / q) + (if n mod q =? 0 then 0 else 1)) (- (s + 1)) false in
  let f := SF2Prim sf in
  if neg then (- f)%float else f.

(** Underscores of a numeric literal: each one stands after a digit and
    before a digit.  The result is the text without them. *)
Fixpoint drop_underscores (s : string) (prev : ascii) : option string :=
  match s with
  | EmptyString => if Ascii.eqb prev "_" then None else Some EmptyString
  | String c r =>
      if Ascii.eqb c "_" then
        if is_digit prev then drop_underscores r c else None
      else if (Ascii.eqb prev "_" && negb (is_digit c))%bool then None
      else option_map (String c) (drop_underscores r c)
  end.

(** A run of digits: its value on top of [acc], its length on top of [n],
    and the text after it. *)
Fixpoint scan_digits (s : string) (acc n : Z) : Z * Z * string :=
  match s with
  | EmptyString => (acc, n, s)
  | String c r =>
      if is_digit c then scan_digits r (10 * acc + digit_val c) (n + 1)
      else (acc, n, s)
  end.

Definition scan_sign (s : string) : bool * string :=
  match s with
  | String "-" r => (true, r)
  | String "+" r => (false, r)
  | _ => (false, s)
  end.

(** A decimal literal without sign: digits, an optional point and more
    digits, an optional exponent; at least one digit before the exponent.
    The result [(m, e)] stands for [m * 10 ^ e]. *)
Definition scan_decimal (s : string) : option (Z * Z) :=
  let '(m1, n1, r1) := scan_digits s 0 0 in
  let '(m2, n2, r2) :=
    match r1 with
    | String "." r => scan_digits r m1 0
    | _ => (m1, 0, r1)
    end in
  if n1 + n2 =? 0 then None
  else
    match r2 with
    | EmptyString => Some (m2, - n2)
    | String c r =>
        if (Ascii.eqb c "e" || Ascii.eqb c "E")%bool then
          let '(eneg, r') := scan_sign r in
          let '(x, nx, r3) := scan_digits r' 0 0 in
          if ((nx =? 0) || negb (is_empty r3))%bool then None
          else Some (m2, (if eneg then - x else x) - n2)
        else None
    end.

(** [float(s)] on text.  [None] stands for [ValueError]. *)
Definition float_of_str (s : string) : option float :=
  match drop_underscores
          (lstrip_with c_isspace (rstrip_with c_isspace s)) "000" with
  | None => None
  | Some t =>
      let '(neg, u) := scan_sign t in
      let w := lower u in
      if (String.eqb w "inf" || String.eqb w "infinity")%bool then
        Some (if neg then neg_inf else pos_inf)
      else if String.eqb w "nan" then Some PrimFloat.nan
      else
        match scan_decimal u with
        | Some (m, e) => Some (float_of_decimal neg m e)
        | None => None
        end
  end.

(** Two digits, zero padded: [7] gives [07]. *)
Definition two_digits (n : Z) : string :=
  (if n <? 10 then "0" else "") ++ str_of_int n.

(** [q / d] rounded to the nearest integer, ties to even ([0 <= q], [0 < d]). *)
Definition div_nearest_even (q d : Z) : Z :=
  let n := q / d in
  let r := q mod d in
  match 2 * r ?= d with
  | Lt => n
  | Gt => n + 1
  | Eq => if Z.even n then n else n + 1
  end.

(** The format specification [:.2f]: two digits after the point, the
    exact binary value rounded to the nearest, ties to even. *)
Definition format_2f (x : float) : string :=
  match Prim2SF x with
  | S754_nan => "nan"
  | S754_infinity s => if s then "-inf" else "inf"
  | S754_zero s => (if s then "-" else "") ++ "0.00"
  | S754_finite s m e =>
      let h :=
        if 0 <=? e then Zpos m * 2 ^ e * 100
        else div_nearest_even (Zpos m * 100) (2 ^ (- e)) in
      (if s then "-" else "") ++ str_of_int (h / 100) ++ "."
        ++ two_digits (h mod 100)
  end.

(** *** [repr] of a float: the shortest digits that read back as it *)

(** The largest [k] in [lo, lo + fuel] with [10 ^ k <= n / d], searched
    upwards ([0 < n], [0 < d], and [10 ^ lo <= n / d]). *)
Fixpoint log10_from (fuel : nat) (k n d : Z) : Z :=
  match fuel with
  | O => k
  | S fuel' =>
      let k' := k + 1 in
      if (if 0 <=? k' then 10 ^ k' * d <=? n else d <=? n * 10 ^ (- k'))
      then log10_from fuel' k' n d
      else k
  end.

(** The candidates with [p] digits around [n / d], whose decimal exponent
    is [e10]: the integers just below and just above [n / d * 10 ^ (p - 1 -
    e10)], the nearer one first.  Each comes with its power of ten. *)
Definition candidates (n d e10 : Z) (p : Z) : list (Z * Z) :=
  let k := p - 1 - e10 in
  let n' := if 0 <=? k then n * 10 ^ k else n in
  let d' := if 0 <=? k then d else d * 10 ^ (- k) in
  let lo := n' / d' in
  let r := n' mod d' in
  if r =? 0 then [(lo, - k)]
  else if 2 * r <? d' then [(lo, - k); (lo + 1, - k)]
  else if d' <? 2 * r then [(lo + 1, - k); (lo, - k)]
  else if Z.even lo then [(lo, - k); (lo + 1, - k)]
  else [(lo + 1, - k); (lo, - k)].

Definition reads_back (x : float) (c : Z * Z) : bool :=
  PrimFloat.eqb (float_of_decimal false (fst c) (snd c)) x.

(** The first candidate that reads back as [x], trying 1, 2, ... digits;
    with no digits left to try, the nearest candidate of the last length. *)
Fixpoint shortest (fuel : nat) (x : float) (n d e10 p : Z) : Z * Z :=
  let cs := candidates n d e10 p in
  match find (reads_back x) cs, fuel with
  | Some c, _ => c
  | None, S fuel' => shortest fuel' x n d e10 (p + 1)
  | None, O => hd (0, 0) cs
  end.

(** Trailing zeros of the digits moved into the exponent. *)
Fixpoint drop_zeros (fuel : nat) (c e : Z) : Z * Z :=
  match fuel with
  | O => (c, e)
  | S fuel' =>
      if ((0 <? c) && (c mod 10 =? 0))%bool
      then drop_zeros fuel' (c / 10) (e + 1)
      else (c, e)
  end.

Fixpoint zeros (n : nat) : string :=
  match n with
  | O => EmptyString
  | S k => String "0" (zeros k)
  end.

(** The digits [ds] with the decimal point before position [decpt], as
    [repr] lays them out: plain for [-4 < decpt <= 16], else with an
    exponent of at least two digits. *)
Definition layout (ds : string) (decpt : Z) : string :=
  let n := Z.of_nat (String.length ds) in
  if ((decpt <=? -4) || (16 <? decpt))%bool then
    let x := decpt - 1 in
    substring 0 1 ds
      ++ (if 1 <? n then "." ++ substring 1 (String.length ds - 1) ds else "")
      ++ "e" ++ (if x <? 0 then "-" else "+") ++ two_digits (Z.abs x)
  else if decpt <=? 0 then "0." ++ zeros (Z.to_nat (- decpt)) ++ ds
  else if n <=? decpt then ds ++ zeros (Z.to_nat (decpt - n)) ++ ".0"
  else substring 0 (Z.to_nat decpt) ds ++ "."
         ++ substring (Z.to_nat decpt) (String.length ds - Z.to_nat decpt) ds.

(** [repr(x)], which is also [str(x)], on a float. *)
Definition float_repr (x : float) : string :=
  match Prim2SF x with
  | S754_nan => "nan"
  | S754_infinity s => if s then "-inf" else "inf"
  | S754_zero s => if s then "-0.0" else "0.0"
  | S754_finite s m e =>
      let n := if 0 <=? e then Zpos m * 2 ^ e else Zpos m in
      let d := if 0 <=? e then 1 else 2 ^ (- e) in
      let e10 := log10_from 640 (-324) n d in
      let '(c, k) := shortest 16 (PrimFloat.abs x) n d e10 1 in
      let '(c', k') := drop_zeros 20 c k in
      let ds := str_of_int c' in
      (if s then "-" else "")
        ++ layout ds (Z.of_nat (String.length ds) + k')
  end.

(** ** Values handed to the constructor *)

Inductive pyval : Type :=
| VNone
| VStr (s : string)
| VInt (n : Z)
| VFloat (x : float).

(** [int(v)]. *)
Definition py_int (v : pyval) : result Z :=
  match v with
  | VNone => Raise TypeError
  | VStr s =>
      match int_of_str s with
      | Some n => Ok n
      | None => Raise ValueError
      end
  | VInt n => Ok n
  | VFloat x =>
      match Prim2SF x with
      | S754_nan => Raise ValueError
      | S754_infinity _ => Raise OverflowError
      | S754_zero _ => Ok 0
      | S754_finite s m e =>
          let a := if 0 <=? e then Zpos m * 2 ^ e else Zpos m / 2 ^ (- e) in
          Ok (if s then - a else a)
      end
  end.

(** [float(v)]. *)
Definition py_float (v : pyval) : result float :=
  match v with
  | VNone => Raise TypeError
  | VStr s =>
      match float_of_str s with
      | Some x => Ok x
      | None => Raise ValueError
      end
  | VInt n =>
      match binary_normalize prec emax n 0 false with
      | S754_infinity _ => Raise OverflowError
      | sf => Ok (SF2Prim sf)
      end
  | VFloat x => Ok x
  end.

(** ** Students *)

Record Student : Type := mkStudent {
  id : string;
  name : string;
  age : Z;
  grade : string;
  gpa : float
}.

(** [Student.__init__].  The two numeric fields are converted, and a
    [ValueError] of the conversion is replaced by [0] or [0.0]; any other
    exception leaves the constructor.  The record of the model holds text
    in [id], [name] and [grade]: every call of the program passes text
    there, except for a short row of the file, whose missing cells are
    [None] and whose [GPA] is then [None] too, so that [float] has raised
    [TypeError] before the last line is reached. *)
Definition Student_init (student_id name age grade gpa : pyval)
  : result Student :=
  bind (try_except (py_int age) is_ValueError (fun _ => Ok 0)) (fun a =>
  bind (try_except (py_float gpa) is_ValueError (fun _ => Ok 0%float))
    (fun g =>
  match student_id, name, grade with
  | VStr i, VStr n, VStr gr => Ok (mkStudent i n a gr g)
  | _, _, _ => Raise TypeError
  end)).

(** [Student.__str__]. *)
Definition Student_str (s : Student) : string :=
  "ID: " ++ ljust 5 (id s) ++ " | Name: " ++ ljust 20 (name s)
    ++ " | Age: " ++ ljust 3 (str_of_int (age s))
    ++ " | Grade: " ++ ljust 5 (grade s)
    ++ " | GPA: " ++ format_2f (gpa s).

Definition FIELDNAMES : list string := ["ID"; "Name"; "Age"; "Grade"; "GPA"].

(** [Student.to_dict]: the entries in the order they are written. *)
Definition to_dict (s : Student) : list (string * pyval) :=
  [("ID", VStr (id s)); ("Name", VStr (name s)); ("Age", VInt (age s));
   ("Grade", VStr (grade s)); ("GPA", VFloat (gpa s))].

Fixpoint dict_get (d : list (string * pyval)) (k : string) : option pyval :=
  match d with
  | [] => None
  | (k', v) :: r => if String.eqb k' k then Some v else dict_get r k
  end.

Definition dict_has (d : list (string * pyval)) (k : string) : bool :=
  match dict_get d k with Some _ => true | None => false end.

(** ** The csv module, at the level of rows *)

(** What [csv.writer] writes for one value: text as it is, nothing for
    [None], [str] of a number. *)
Definition csv_field (v : pyval) : string :=
  match v with
  | VNone => ""
  | VStr s => s
  | VInt n => str_of_int n
  | VFloat x => float_repr x
  end.

(** [DictWriter.writerow]: a key outside the field names is an error; the
    cells are the values of the field names in order, with the empty text
    for a key the dict does not have. *)
Definition DictWriter_row (fieldnames : list string)
    (d : list (string * pyval)) : result (list string) :=
  if forallb (fun kv => existsb (String.eqb (fst kv)) fieldnames) d then
    Ok (map (fun k => match dict_get d k with
                      | Some v => csv_field v
                      | None => ""
                      end) fieldnames)
  else Raise ValueError.

(** The dict [DictReader] builds from the cells of one row: the field
    names paired with the cells, [None] for a field name beyond the last
    cell, and the cells beyond the last field name under the key [None]. *)
Record reader_row : Type := mkRow {
  fields : list (string * pyval);
  restkey : option (list string)
}.

Definition DictReader_row (fieldnames cells : list string) : reader_row :=
  let lf := List.length fieldnames in
  let lr := List.length cells in
  let d := combine fieldnames (map VStr cells) in
  if (lf <? lr)%nat then mkRow d (Some (skipn lf cells))
  else mkRow (d ++ map (fun k => (k, VNone)) (skipn lr fieldnames)) None.

(** [row[k]] on a key the row has. *)
Definition row_at (r : reader_row) (k : string) : pyval :=
  match dict_get (fields r) k with
  | Some v => v
  | None => VNone
  end.

(** ** Console output and the file *)

Inductive report : Type :=
| SkippingCorruptedRecord (row : reader_row) (e : exn)
| ErrorCreatingFile (e : exn)
| ErrorDuringLoading (e : exn)
| CouldNotSave (e : exn).

(** One item written to the console: the prompt of an [input], a line of
    a [print], or a diagnostic whose text holds Python's rendering of a
    dict or of an exception. *)
Inductive out : Type :=
| Prompt (s : string)
| Line (s : string)
| Report (r : report).

(** The file [students.txt] as the csv module sees it.  [content] is
    [None] when the file does not exist, else the rows [csv.reader] yields
    from it, one list of cells per line, the empty list for a blank line.
    [read_fault] is an error that reading meets after these rows (or on
    opening, with no rows); [write_fault] is an error that opening the
    file for writing meets. *)
Record disk : Type := mkDisk {
  content : option (list (list string));
  read_fault : option exn;
  write_fault : option exn
}.

(** ** A state monad with exceptions

    [M S A] is a computation over a state [S] that returns an [A] or
    raises; the state reached is kept in both cases, as the effects of a
    Python block are when an exception leaves it. *)

Definition M (S A : Type) : Type := S -> result A * S.

Definition ret {S A : Type} (a : A) : M S A := fun s => (Ok a, s).

Definition raise {S A : Type} (e : exn) : M S A := fun s => (Raise e, s).

Definition mbind {S A B : Type} (m : M S A) (k : A -> M S B) : M S B :=
  fun s =>
    match m s with
    | (Ok a, s') => k a s'
    | (Raise e, s') => (Raise e, s')
    end.

Definition lift {S A : Type} (r : result A) : M S A := fun s => (r, s).

Definition get {S : Type} : M S S := fun s => (Ok s, s).

Definition modify {S : Type} (f : S -> S) : M S unit := fun s => (Ok tt, f s).

(** [try: m except <class> as e: handler e]. *)
Definition try_catch {S A : Type} (m : M S A) (cls : exn -> bool)
    (handler : exn -> M S A) : M S A :=
  fun s =>
    match m s with
    | (Ok a, s') => (Ok a, s')
    | (Raise e, s') => if cls e then handler e s' else (Raise e, s')
    end.

Declare Scope monad_scope.
Delimit Scope monad_scope with monad.
Notation "x <- m ;; k" := (mbind m (fun x => k))
  (at level 61, m at next level, right associativity) : monad_scope.
Notation "m ;; k" := (mbind m (fun _ => k))
  (at level 61, right associativity) : monad_scope.
Local Open Scope monad_scope.

(** ** Loading and saving *)

(** The state of [load_students]: its local list and the console output. *)
Record loading : Type := mkLoading {
  loaded : list Student;
  printed : list out
}.

Definition append_loaded (s : Student) : M loading unit :=
  modify (fun st => mkLoading (loaded st ++ [s]) (printed st)).

Definition print_loading (o : out) : M loading unit :=
  modify (fun st => mkLoading (loaded st) (printed st ++ [o])).

(** [next(reader)] on a [DictReader]: blank rows are passed over; the end
    of the rows raises the fault of the file, if any, else
    [StopIteration].  The rows left are returned with the dict. *)
Fixpoint DictReader_next (rows : list (list string)) (fault : option exn)
  : result (reader_row * list (list string)) :=
  match rows with
  | [] => Raise (match fault with Some e => e | None => StopIteration end)
  | [] :: rest => DictReader_next rest fault
  | cells :: rest => Ok (DictReader_row FIELDNAMES cells, rest)
  end.

(** The body of the [for] loop of [load_students], with its [try]. *)
Definition load_row (row : reader_row) : M loading unit :=
  try_catch
    (if forallb (dict_has (fields row)) FIELDNAMES then
       student <- lift (Student_init (row_at row "ID") (row_at row "Name")
                          (row_at row "Age") (row_at row "Grade")
                          (row_at row "GPA")) ;;
       append_loaded student
     else ret tt)
    is_Exception
    (fun e => print_loading (Report (SkippingCorruptedRecord row e))).

(** [for row in reader: ...]: the loop ends at [StopIteration]; a fault of
    the file leaves it as an exception. *)
Fixpoint load_rows (rows : list (list string)) (fault : option exn)
  : M loading unit :=
  match rows with
  | [] => match fault with Some e => raise e | None => ret tt end
  | [] :: rest => load_rows rest fault
  | cells :: rest =>
      load_row (DictReader_row FIELDNAMES cells) ;; load_rows rest fault
  end.

(** [load_students], given the file; the result is the list returned, the
    console output, and the file afterwards. *)
Definition load_students (d : disk)
  : result (list Student) * list out * disk :=
  match content d with
  | None =>
      (* the file does not exist: it is created with the header row *)
      match write_fault d with
      | None => (Ok [], [], mkDisk (Some [FIELDNAMES]) (read_fault d) None)
      | Some e =>
          if is_Exception e then (Ok [], [Report (ErrorCreatingFile e)], d)
          else (Raise e, [], d)
      end
  | Some rows =>
      let body : M loading (list Student) :=
        try_catch
          (r <- lift (DictReader_next rows (read_fault d)) ;;
           load_rows (snd r) (read_fault d) ;;
           st <- get ;;
           ret (loaded st))
          is_Exception
          (fun e =>
             print_loading (Report (ErrorDuringLoading e)) ;;
             st <- get ;;
             ret (loaded st)) in
      let '(r, st) := body (mkLoading [] []) in
      (r, printed st, d)
  end.

Definition nl : string := String (ascii_of_N 10) EmptyString.

(** The rows written for the students, up to the first one whose dict
    [DictWriter] refuses, with that refusal. *)
Fixpoint write_rows (l : list Student) : list (list string) * option exn :=
  match l with
  | [] => ([], None)
  | student :: r =>
      match DictWriter_row FIELDNAMES (to_dict student) with
      | Ok cells => let '(rows, x) := write_rows r in (cells :: rows, x)
      | Raise e => ([], Some e)
      end
  end.

(** [save_students], given the list and the file; the result is the
    console output and the file afterwards.  The file is emptied when it
    is opened, then the header and the rows are written. *)
Definition save_students (students : list Student) (d : disk)
  : result unit * list out * disk :=
  match write_fault d with
  | Some e =>
      if is_Exception e then (Ok tt, [Report (CouldNotSave e)], d)
      else (Raise e, [], d)
  | None =>
      let '(rows, x) := write_rows students in
      let d' := mkDisk (Some (FIELDNAMES :: rows)) (read_fault d) None in
      match x with
      | None =>
          (Ok tt,
           [Line (nl ++ "--- Data saved successfully to students.txt ---")],
           d')
      | Some e =>
          if is_Exception e then (Ok tt, [Report (CouldNotSave e)], d')
          else (Raise e, [], d')
      end
  end.

(** ** The operations on the list *)

Definition try_int_max (max_id : Z) (student : Student) : Z :=
  match int_of_str (id student) with
  | Some n => Z.max max_id n
  | None => max_id
  end.

(** [get_next_id]: [1001] on the empty list; else one more than the
    running maximum, which starts at [0] and takes in every id that [int]
    accepts, the others being passed over. *)
Definition get_next_id (students : list Student) : Z :=
  match students with
  | [] => 1001
  | _ => fold_left try_int_max students 0 + 1
  end.

(** The list, the lines still to be typed, and what the console shows. *)
Record world : Type := mkWorld {
  students : list Student;
  stdin : list string;
  stdout : list out
}.

Definition input (prompt : string) : M world string :=
  fun w =>
    let w' := mkWorld (students w) (tl (stdin w)) (stdout w ++ [Prompt prompt]) in
    match stdin w with
    | [] => (Raise EOFError, w')
    | l :: _ => (Ok l, w')
    end.

Definition print (s : string) : M world unit :=
  modify (fun w => mkWorld (students w) (stdin w) (stdout w ++ [Line s])).

Definition set_students (f : list Student -> list Student) : M world unit :=
  modify (fun w => mkWorld (f (students w)) (stdin w) (stdout w)).

(** What one round of a prompting loop decides on the line typed. *)
Inductive verdict (A : Type) : Type :=
| Accept (a : A)
| Reject (message : string).

Arguments Accept {A} a.
Arguments Reject {A} message.

(** [while True:] around one [input]: the line typed is judged; a
    rejected line prints its message and the prompt comes again. *)
Fixpoint ask_lines {A : Type} (prompt : string) (judge : string -> verdict A)
    (lines : list string) : result A * list string * list out :=
  match lines with
  | [] => (Raise EOFError, [], [Prompt prompt])
  | l :: rest =>
      match judge l with
      | Accept a => (Ok a, rest, [Prompt prompt])
      | Reject message =>
          let '(r, rest', o) := ask_lines prompt judge rest in
          (r, rest', Prompt prompt :: Line message :: o)
      end
  end.

Definition ask {A : Type} (prompt : string) (judge : string -> verdict A)
  : M world A :=
  fun w =>
    let '(r, rest, o) := ask_lines prompt judge (stdin w) in
    (r, mkWorld (students w) rest (stdout w ++ o)).

Definition in_gpa_range (x : float) : bool :=
  (PrimFloat.leb 0 x && PrimFloat.leb x 4)%bool.

Definition judge_age (l : string) : verdict Z :=
  match int_of_str l with
  | Some age =>
      if age <=? 0 then Reject "Age must be a positive number."
      else Accept age
  | None => Reject "Invalid input. Please enter a number for Age."
  end.

Definition judge_gpa (l : string) : verdict float :=
  match float_of_str l with
  | Some gpa =>
      if negb (in_gpa_range gpa) then Reject "GPA must be between 0.0 and 4.0."
      else Accept gpa
  | None => Reject "Invalid input. Please enter a number for GPA."
  end.

Definition bytes (l : list N) : string :=
  string_of_list_ascii (map ascii_of_N l).

(** The marks in front of some messages, as the bytes of the source. *)
Definition check_mark : string := bytes [195; 162; 197; 147; 226; 128; 166]%N.
Definition medal : string :=
  bytes [195; 176; 197; 184; 194; 165; 226; 128; 161]%N.

(** [add_new_student]. *)
Definition add_new_student : M world unit :=
  print (nl ++ "--- New Student Addition ---") ;;
  w <- get ;;
  let student_id := str_of_int (get_next_id (students w)) in
  l <- input "Enter Name: " ;;
  let name := strip l in
  if is_empty name then print "Name cannot be empty. Operation cancelled."
  else
    age <- ask "Enter Age: " judge_age ;;
    l <- input "Enter Grade (e.g., 10th, College): " ;;
    let grade := strip l in
    gpa <- ask "Enter GPA (e.g., 3.5): " judge_gpa ;;
    new_student <- lift (Student_init (VStr student_id) (VStr name) (VInt age)
                           (VStr grade) (VFloat gpa)) ;;
    set_students (fun l => (l ++ [new_student])%list) ;;
    print (nl ++ check_mark ++ " Student '" ++ name ++ "' added with ID: "
             ++ student_id).

Definition dashes : string := string_of_list_ascii (repeat "-"%char 65).

Fixpoint print_each (l : list Student) : M world unit :=
  match l with
  | [] => ret tt
  | s :: r => print (Student_str s) ;; print_each r
  end.

(** [view_all_students]. *)
Definition view_all_students : M world unit :=
  print (nl ++ "--- All Students Records ---") ;;
  w <- get ;;
  match students w with
  | [] => print "No student records found."
  | _ =>
      print ("ID: " ++ ljust 5 "ID" ++ " | Name: " ++ ljust 20 "NAME"
               ++ " | Age: " ++ ljust 3 "AGE" ++ " | Grade: "
               ++ ljust 5 "GRADE" ++ " | GPA: " ++ ljust 4 "GPA") ;;
      print dashes ;;
      print_each (students w) ;;
      print dashes
  end.

(** The test of the list comprehension of [students_search]. *)
Definition search_hit (query : string) (s : Student) : bool :=
  (py_in (lower query) (lower (id s))
   || py_in (lower query) (lower (name s)))%bool.

(** [students_search]. *)
Definition students_search : M world unit :=
  l <- input (nl ++ "Enter Student ID or Name to search: ") ;;
  let query := strip l in
  if is_empty query then ret tt
  else
    w <- get ;;
    let found_students := filter (search_hit query) (students w) in
    match found_students with
    | _ :: _ =>
        print (nl ++ "--- Search Results ---") ;;
        print_each found_students
    | [] => print ("No student found matching '" ++ query ++ "'.")
    end.

(** The first student with the given id, and its position: the object
    that [next(s for s in students if s.id == student_id)] returns. *)
Fixpoint locate (student_id : string) (l : list Student)
  : option (nat * Student) :=
  match l with
  | [] => None
  | s :: r =>
      if String.eqb (id s) student_id then Some (O, s)
      else
        match locate student_id r with
        | Some (i, t) => Some (S i, t)
        | None => None
        end
  end.

(** [students.remove(obj)] for the object found at position [i]: objects
    compare by identity, and the first occurrence of the object is at
    [i], since an earlier one would have been found first. *)
Definition remove_at (i : nat) (l : list Student) : list Student :=
  (firstn i l ++ skipn (S i) l)%list.

(** An assignment to a field of the object at position [i]: the list
    holds the object with its new state. *)
Definition replace_at (i : nat) (s : Student) (l : list Student)
  : list Student :=
  (firstn i l ++ s :: skipn (S i) l)%list.

Definition with_name (s : Student) (v : string) : Student :=
  mkStudent (id s) v (age s) (grade s) (gpa s).
Definition with_age (s : Student) (v : Z) : Student :=
  mkStudent (id s) (name s) v (grade s) (gpa s).
Definition with_grade (s : Student) (v : string) : Student :=
  mkStudent (id s) (name s) (age s) v (gpa s).
Definition with_gpa (s : Student) (v : float) : Student :=
  mkStudent (id s) (name s) (age s) (grade s) v.

(** The rounds of the two numeric loops of the update: the empty answer
    ends the loop with nothing to assign. *)
Definition judge_new_age (l : string) : verdict (option Z) :=
  let new_age := strip l in
  if is_empty new_age then Accept None
  else
    match int_of_str new_age with
    | Some n =>
        if 0 <? n then Accept (Some n)
        else Reject "Age must be a positive number."
    | None => Reject "Invalid input. Please enter a number for Age."
    end.

Definition judge_new_gpa (l : string) : verdict (option float) :=
  let new_gpa := strip l in
  if is_empty new_gpa then Accept None
  else
    match float_of_str new_gpa with
    | Some x =>
        if in_gpa_range x then Accept (Some x)
        else Reject "GPA must be between 0.0 and 4.0."
    | None => Reject "Invalid input. Please enter a number for GPA."
    end.

(** The update branch, on the object [s] found at position [i].  Each
    assignment is made in the list at once, so that an exception at a
    later prompt leaves the earlier assignments in place. *)
Definition update_student (student_id : string) (i : nat) (s : Student)
  : M world unit :=
  print (nl ++ "--- Update Student Details --- (Press Enter to keep current value)") ;;
  l <- input ("New Name (" ++ name s ++ "): ") ;;
  let new_name := strip l in
  s1 <- (if is_empty new_name then ret s
         else set_students (replace_at i (with_name s new_name)) ;;
              ret (with_name s new_name)) ;;
  new_age <- ask ("New Age (" ++ str_of_int (age s1) ++ "): ") judge_new_age ;;
  s2 <- match new_age with
        | None => ret s1
        | Some v => set_students (replace_at i (with_age s1 v)) ;;
                    ret (with_age s1 v)
        end ;;
  l <- input ("New Grade (" ++ grade s2 ++ "): ") ;;
  let new_grade := strip l in
  s3 <- (if is_empty new_grade then ret s2
         else set_students (replace_at i (with_grade s2 new_grade)) ;;
              ret (with_grade s2 new_grade)) ;;
  new_gpa <- ask ("New GPA (" ++ format_2f (gpa s3) ++ "): ") judge_new_gpa ;;
  s4 <- match new_gpa with
        | None => ret s3
        | Some v => set_students (replace_at i (with_gpa s3 v)) ;;
                    ret (with_gpa s3 v)
        end ;;
  print (check_mark ++ " Student ID " ++ student_id ++ " (" ++ name s4
           ++ ") has been **UPDATED**.").

(** [update_and_delete]. *)
Definition update_and_delete : M world unit :=
  l <- input (nl ++ "Enter the ID of the student to Update or Delete: ") ;;
  let student_id := strip l in
  w <- get ;;
  match locate student_id (students w) with
  | None => print ("Student with ID " ++ student_id ++ " not found.")
  | Some (i, student_to_modify) =>
      print (nl ++ "--- Student Found ---") ;;
      print (Student_str student_to_modify) ;;
      l <- input (nl ++ "Enter action (U for Update / D for Delete): ") ;;
      let action := upper (strip l) in
      if String.eqb action "D" then
        set_students (remove_at i) ;;
        print (check_mark ++ " Student ID " ++ student_id ++ " ("
                 ++ name student_to_modify ++ ") has been **DELETED**.")
      else if String.eqb action "U" then
        update_student student_id i student_to_modify
      else print "Invalid action. Operation cancelled."
  end.

(** [sum] of floats: from [0], left to right, as CPython adds before
    version 3.12; later versions also carry a compensation term, which
    is zero when every partial sum is exact. *)
Definition py_sum (l : list float) : float :=
  fold_left PrimFloat.add l 0%float.

(** The float of an integer: the nearest one, ties to even. *)
Definition float_of_int (n : Z) : float :=
  SF2Prim (binary_normalize prec emax n 0 false).

(** [max(students, key=lambda s: s.gpa)] after its first item: an item
    takes over when its key is greater than the key kept. *)
Fixpoint max_from (best : Student) (l : list Student) : Student :=
  match l with
  | [] => best
  | s :: r =>
      max_from (if PrimFloat.ltb (gpa best) (gpa s) then s else best) r
  end.

Definition average_gpa (students : list Student) : float :=
  (py_sum (map gpa students)
   / float_of_int (Z.of_nat (List.length students)))%float.

(** [calculate_avg_and_topper]. *)
Definition calculate_avg_and_topper : M world unit :=
  w <- get ;;
  match students w with
  | [] => print (nl ++ "No student records available for calculation.")
  | first :: others =>
      let topper := max_from first others in
      print (nl ++ "--- Calculation Summary ---") ;;
      print ("Total number of students: "
               ++ str_of_int (Z.of_nat (List.length (students w)))) ;;
      print ("Average GPA: " ++ format_2f (average_gpa (students w))) ;;
      print (nl ++ medal ++ " Topper Found (Highest GPA) " ++ medal) ;;
      print (Student_str topper) ;;
      print dashes
  end.

(** * Properties *)

(** ** [int] reads back what [str] writes *)

Section IntText.

Fixpoint every (p : ascii -> bool) (s : string) : bool :=
  match s with
  | EmptyString => true
  | String c r => (p c && every p r)%bool
  end.

Lemma lstrip_with_every sp s :
  every (fun c => negb (sp c)) s = true -> lstrip_with sp s = s.
Proof.
  destruct s as [|c r]; simpl; [reflexivity|].
  intros H. apply andb_prop in H. destruct H as [Hc _].
  destruct (sp c); [discriminate|reflexivity].
Qed.

Lemma rstrip_with_every sp s :
  every (fun c => negb (sp c)) s = true -> rstrip_with sp s = s.
Proof.
  induction s as [|c r IH]; simpl; [reflexivity|].
  intros H. apply andb_prop in H. destruct H as [Hc Hr].
  rewrite (IH Hr). destruct (sp c); [discriminate|reflexivity].
Qed.

Lemma digits_no_space d :
  every (fun c => negb (c_isspace c)) (NilEmpty.string_of_uint d) = true.
Proof. induction d; simpl; auto. Qed.

Lemma int_digits_uint d : forall d' b,
  d <> Decimal.Nil \/ b = true ->
  int_digits (NilEmpty.string_of_uint d) (Z.of_N (Unsigned.of_lu d')) b
  = Some (Z.of_N (Unsigned.of_lu (Decimal.revapp d d'))).
Proof.
  induction d; intros d' b Hb.
  1: { simpl. destruct Hb as [Hb|Hb]; [congruence|subst b; reflexivity]. }
  all: cbn [NilEmpty.string_of_uint int_digits Decimal.revapp].
  all: match goal with
       | |- context [is_digit ?c] =>
           replace (is_digit c) with true by reflexivity
       end.
  all: cbv iota.
  all: match goal with
       | |- int_digits _ ?a true
            = Some (Z.of_N (Unsigned.of_lu (Decimal.revapp _ ?e))) =>
           replace a with (Z.of_N (Unsigned.of_lu e));
           [apply IHd; right; reflexivity|]
       end.
  all: cbn [Unsigned.of_lu]; unfold digit_val.
  all: match goal with
       | |- context [Z.of_N (code ?c - 48)] =>
           let v := eval compute in (Z.of_N (code c - 48)) in
           change (Z.of_N (code c - 48)) with v
       end.
  all: lia.
Qed.

Lemma int_digits_to_uint p :
  int_digits (NilEmpty.string_of_uint (Pos.to_uint p)) 0 false = Some (Zpos p).
Proof.
  change 0 with (Z.of_N (Unsigned.of_lu Decimal.Nil)).
  rewrite int_digits_uint by (left; apply Unsigned.to_uint_nonnil).
  change (Decimal.revapp (Pos.to_uint p) Decimal.Nil) with (Decimal.rev (Pos.to_uint p)).
  rewrite <- Unsigned.of_uint_alt, Unsigned.of_to. reflexivity.
Qed.

Lemma string_of_uint_to_uint p :
  NilZero.string_of_uint (Pos.to_uint p)
  = NilEmpty.string_of_uint (Pos.to_uint p).
Proof.
  pose proof (Unsigned.to_uint_nonnil p) as H.
  destruct (Pos.to_uint p); [congruence|reflexivity..].
Qed.

(** The first character of a run of digits is no sign, so [int] reads
    the run as a whole. *)
Lemma int_of_str_digits d :
  d <> Decimal.Nil ->
  int_of_str (NilEmpty.string_of_uint d)
  = int_digits (NilEmpty.string_of_uint d) 0 false.
Proof.
  intros Hd. unfold int_of_str.
  rewrite rstrip_with_every, lstrip_with_every by apply digits_no_space.
  destruct d; [congruence|reflexivity..].
Qed.

Lemma int_of_str_of_int n : int_of_str (str_of_int n) = Some n.
Proof.
  destruct n as [|p|p]; [reflexivity| |].
  - unfold str_of_int. cbn [Z.to_int NilZero.string_of_int].
    rewrite string_of_uint_to_uint.
    rewrite int_of_str_digits by apply Unsigned.to_uint_nonnil.
    apply int_digits_to_uint.
  - unfold str_of_int. cbn [Z.to_int NilZero.string_of_int].
    rewrite string_of_uint_to_uint.
    unfold int_of_str.
    assert (E : every (fun c => negb (c_isspace c))
                  (String "-" (NilEmpty.string_of_uint (Pos.to_uint p))) = true).
    { simpl. apply digits_no_space. }
    rewrite rstrip_with_every, lstrip_with_every by exact E.
    rewrite int_digits_to_uint. reflexivity.
Qed.

End IntText.

(** ** The next id *)

(** The ids of the list that [int] accepts, as integers, in order. *)
Fixpoint int_ids (l : list Student) : list Z :=
  match l with
  | [] => []
  | s :: r =>
      match int_of_str (id s) with
      | Some n => n :: int_ids r
      | None => int_ids r
      end
  end.

(** [m] is the greatest element of [l]. *)
Definition greatest (m : Z) (l : list Z) : Prop :=
  In m l /\ forall n, In n l -> n <= m.

Section NextId.

Lemma fold_try_int_max l : forall acc,
  fold_left try_int_max l acc = fold_right Z.max acc (int_ids l).
Proof.
  induction l as [|s r IH]; intros acc; simpl; [reflexivity|].
  rewrite IH. unfold try_int_max.
  destruct (int_of_str (id s)) as [n|]; simpl; [|reflexivity].
  clear IH. revert acc. induction (int_ids r) as [|k t IHt]; intros acc; simpl.
  - lia.
  - rewrite IHt. lia.
Qed.

Lemma fold_max_upper (l : list Z) (floor : Z) :
  floor <= fold_right Z.max floor l
  /\ forall n, In n l -> n <= fold_right Z.max floor l.
Proof.
  induction l as [|k t [IH1 IH2]]; simpl.
  - split; [lia|]. intros n Hn. destruct Hn.
  - split; [lia|]. intros n Hn. destruct Hn as [Hn|Hn].
    + subst n. lia.
    + specialize (IH2 n Hn). lia.
Qed.

Lemma fold_max_attained (l : list Z) (floor : Z) :
  fold_right Z.max floor l = floor \/ In (fold_right Z.max floor l) l.
Proof.
  induction l as [|k t IH]; simpl; [left; reflexivity|].
  destruct (Z.max_spec k (fold_right Z.max floor t)) as [[_ E]|[_ E]];
    rewrite E.
  - destruct IH as [IH|IH]; [left; exact IH|right; right; exact IH].
  - right; left; reflexivity.
Qed.

Lemma get_next_id_cons s l :
  get_next_id (s :: l) = fold_right Z.max 0 (int_ids (s :: l)) + 1.
Proof. unfold get_next_id. rewrite fold_try_int_max. reflexivity. Qed.

Lemma get_next_id_above students n :
  In n (int_ids students) -> n < get_next_id students.
Proof.
  destruct students as [|s l]; [intros []|].
  intros Hn. rewrite get_next_id_cons.
  pose proof (proj2 (fold_max_upper (int_ids (s :: l)) 0) n Hn). lia.
Qed.

Lemma in_int_ids s students n :
  In s students -> int_of_str (id s) = Some n -> In n (int_ids students).
Proof.
  induction students as [|t r IH]; simpl; [intros []|].
  intros [->|Hs] Hn.
  - rewrite Hn. left; reflexivity.
  - destruct (int_of_str (id t)); [right|]; auto.
Qed.

Lemma int_ids_none students :
  (forall s, In s students -> int_of_str (id s) = None) ->
  int_ids students = [].
Proof.
  induction students as [|t r IH]; simpl; [reflexivity|].
  intros H. rewrite (H t) by (left; reflexivity).
  apply IH. intros s Hs. apply H. right; exact Hs.
Qed.

(** The id that [add_new_student] computes is the id of no student of
    the list: an equal id would read as an integer below itself. *)
Lemma next_id_fresh students s :
  In s students -> id s <> str_of_int (get_next_id students).
Proof.
  intros Hs E.
  assert (Hn : int_of_str (id s) = Some (get_next_id students))
    by (rewrite E; apply int_of_str_of_int).
  pose proof (get_next_id_above students _ (in_int_ids _ _ _ Hs Hn)). lia.
Qed.

End NextId.

(** ** Running the operations *)

Section Running.

Lemma ask_lines_accepted {A : Type} prompt (judge : string -> verdict A) :
  forall lines a rest o,
    ask_lines prompt judge lines = (Ok a, rest, o) ->
    exists l, In l lines /\ judge l = Accept a.
Proof.
  induction lines as [|l r IH]; simpl; intros a rest o H; [discriminate|].
  destruct (judge l) as [a'|message] eqn:E.
  - injection H as <- _ _. exists l. split; [left; reflexivity|exact E].
  - destruct (ask_lines prompt judge r) as [[r' rest'] o'] eqn:E'.
    injection H as -> _ _.
    destruct (IH _ _ _ eq_refl) as [l' [Hl Hj]].
    exists l'. split; [right; exact Hl|exact Hj].
Qed.

Lemma Student_init_typed i n a g x :
  Student_init (VStr i) (VStr n) (VInt a) (VStr g) (VFloat x)
  = Ok (mkStudent i n a g x).
Proof. reflexivity. Qed.

(** What [add_new_student] does to the list: nothing, or one student
    appended, whose id is the text of [get_next_id] of the list before,
    whose name is not empty, whose age is positive and whose gpa is in
    range. *)
Lemma add_new_student_roster w :
  let w' := snd (add_new_student w) in
  students w' = students w
  \/ exists name age grade gpa,
       students w'
       = (students w
          ++ [mkStudent (str_of_int (get_next_id (students w)))
                name age grade gpa])%list
       /\ name <> "" /\ 0 < age /\ in_gpa_range gpa = true.
Proof.
  intros w'. assert (H : w' = snd (add_new_student w)) by reflexivity.
  clearbody w'. revert H.
  unfold add_new_student, mbind, print, modify, get, input, set_students,
    lift, ret, ask. cbn [students stdin stdout].
  destruct (stdin w) as [|l1 r1]; [intros ->; left; reflexivity|]. cbn [tl].
  destruct (is_empty (strip l1)) eqn:E1; [intros ->; left; reflexivity|].
  cbn [students stdin stdout].
  destruct (ask_lines "Enter Age: " judge_age r1) as [[[a|e] r2] o2] eqn:E2;
    [|intros ->; left; reflexivity].
  cbn [students stdin stdout].
  destruct r2 as [|l3 r3]; [intros ->; left; reflexivity|].
  cbn [tl students stdin stdout].
  destruct (ask_lines "Enter GPA (e.g., 3.5): " judge_gpa r3)
    as [[[g|e] r4] o4] eqn:E4; [|intros ->; left; reflexivity].
  rewrite Student_init_typed. cbn. intros ->. cbn [students].
  right. exists (strip l1), a, (strip l3), g.
  split; [reflexivity|]. split; [|split].
  - intros E. rewrite E in E1. discriminate.
  - destruct (ask_lines_accepted _ _ _ _ _ _ E2) as [l [_ Hj]].
    unfold judge_age in Hj. destruct (int_of_str l); [|discriminate].
    destruct (z <=? 0) eqn:Ez; [discriminate|].
    injection Hj as <-. lia.
  - destruct (ask_lines_accepted _ _ _ _ _ _ E4) as [l [_ Hj]].
    unfold judge_gpa in Hj. destruct (float_of_str l); [|discriminate].
    destruct (in_gpa_range f) eqn:Ef; [|discriminate].
    injection Hj as <-. exact Ef.
Qed.

End Running.

Section NextIdClaims.

Definition roster_1001_1002_1050 : list Student :=
  [mkStudent "1001" "Ann" 20 "10th" 3.5%float;
   mkStudent "1002" "Bob" 21 "11th" 3%float;
   mkStudent "1050" "Cid" 22 "12th" 2.5%float].

Definition roster_with_text_id : list Student :=
  [mkStudent "1001" "Ann" 20 "10th" 3.5%float;
   mkStudent "A-7" "Bob" 21 "11th" 3%float;
   mkStudent "1050" "Cid" 22 "12th" 2.5%float].

Definition roster_minus_5 : list Student :=
  [mkStudent "-5" "Ann" 20 "10th" 3.5%float].

(** C2, as the claim states it, fails: on the list whose only id is the
    text [-5], which [int] reads as the integer -5, the greatest readable
    id is -5, and [get_next_id] returns 1, not -5 + 1. *)
Lemma get_next_id_negative_id :
  greatest (-5) (int_ids roster_minus_5)
  /\ get_next_id roster_minus_5 = 1
  /\ str_of_int (get_next_id roster_minus_5) <> str_of_int (-5 + 1).
Proof.
  split; [|split].
  - change (int_ids roster_minus_5) with [-5].
    split; [left; reflexivity|].
    intros n [<-|[]]. lia.
  - reflexivity.
  - discriminate.
Qed.

(** C2, amended: [get_next_id] returns 1001 on the empty list, which
    [add_new_student] turns into the text [1001]; on a non-empty list it
    returns [m + 1], where [m] is the greatest of 0 and the ids that [int]
    reads, the other ids being passed over; so when the greatest readable
    id is not negative, it returns that id plus one.  On the ids 1001,
    1002, 1050 the result is 1051, also with an unreadable id among them. *)
Theorem get_next_id_correct :
  get_next_id [] = 1001
  /\ str_of_int (get_next_id []) = "1001"
  /\ (forall s l,
        exists m,
          get_next_id (s :: l) = m + 1
          /\ 0 <= m
          /\ (forall n, In n (int_ids (s :: l)) -> n <= m)
          /\ (m = 0 \/ In m (int_ids (s :: l))))
  /\ (forall s l m,
        greatest m (int_ids (s :: l)) -> 0 <= m ->
        get_next_id (s :: l) = m + 1)
  /\ get_next_id roster_1001_1002_1050 = 1051
  /\ str_of_int (get_next_id roster_1001_1002_1050) = "1051"
  /\ get_next_id roster_with_text_id = 1051.
Proof.
  split; [reflexivity|]. split; [reflexivity|]. split; [|split].
  - intros s l. exists (fold_right Z.max 0 (int_ids (s :: l))).
    split; [apply get_next_id_cons|].
    destruct (fold_max_upper (int_ids (s :: l)) 0) as [H1 H2].
    split; [exact H1|]. split; [exact H2|].
    apply fold_max_attained.
  - intros s l m [Hin Hmax] Hm. rewrite get_next_id_cons. f_equal.
    destruct (fold_max_upper (int_ids (s :: l)) 0) as [H1 H2].
    specialize (H2 m Hin).
    destruct (fold_max_attained (int_ids (s :: l)) 0) as [E|E].
    + lia.
    + specialize (Hmax _ E). lia.
  - split; [reflexivity|]. split; reflexivity.
Qed.

(** The theorem on the ids 1001, 1002, 1050, whose greatest is 1050. *)
Lemma get_next_id_correct_witness :
  get_next_id roster_1001_1002_1050 = 1050 + 1.
Proof.
  destruct get_next_id_correct as [_ [_ [_ [H _]]]].
  apply (H (mkStudent "1001" "Ann" 20 "10th" 3.5%float)
           [mkStudent "1002" "Bob" 21 "11th" 3%float;
            mkStudent "1050" "Cid" 22 "12th" 2.5%float] 1050).
  - change (int_ids roster_1001_1002_1050) with [1001; 1002; 1050].
    split; [right; right; left; reflexivity|].
    intros n [<-|[<-|[<-|[]]]]; vm_compute; intros K; discriminate K.
  - lia.
Defined.

(** C10: on a non-empty list none of whose ids [int] reads,
    [get_next_id] returns 1; a student that [add_new_student] then adds
    has the id [1], and it adds one whenever the name typed is not blank
    and the age and the gpa typed pass their checks. *)
Theorem get_next_id_no_numeric_id (w : world) :
  students w <> [] ->
  (forall s, In s (students w) -> int_of_str (id s) = None) ->
  get_next_id (students w) = 1
  /\ (students (snd (add_new_student w)) = students w
      \/ exists name age grade gpa,
           students (snd (add_new_student w))
           = (students w ++ [mkStudent "1" name age grade gpa])%list)
  /\ (forall l1 l2 l3 l4 rest a g,
        stdin w = l1 :: l2 :: l3 :: l4 :: rest ->
        strip l1 <> "" -> judge_age l2 = Accept a ->
        judge_gpa l4 = Accept g ->
        students (snd (add_new_student w))
        = (students w ++ [mkStudent "1" (strip l1) a (strip l3) g])%list).
Proof.
  intros Hne Hnone.
  assert (E : get_next_id (students w) = 1).
  { destruct (students w) as [|s l] eqn:Es; [congruence|].
    rewrite get_next_id_cons, (int_ids_none _ Hnone). reflexivity. }
  split; [exact E|]. split.
  - destruct (add_new_student_roster w) as [H|[n [a [g [x [H _]]]]]].
    + left; exact H.
    + right. exists n, a, g, x. rewrite H, E. reflexivity.
  - intros l1 l2 l3 l4 rest a g Hin Hname Hage Hgpa.
    unfold add_new_student, mbind, print, modify, get, input, set_students,
      lift, ret, ask. cbn [students stdin stdout]. rewrite Hin. cbn [tl].
    destruct (is_empty (strip l1)) eqn:E1.
    { destruct (strip l1); [congruence|discriminate]. }
    cbn [students stdin stdout ask_lines]. rewrite Hage.
    cbn [students stdin stdout ask_lines tl]. rewrite Hgpa.
    rewrite Student_init_typed, E. reflexivity.
Qed.

Definition world_text_id : world :=
  mkWorld [mkStudent "A-7" "Bob" 21 "11th" 3%float]
    ["Eve"; "19"; "12th"; "3.75"] [].

Lemma get_next_id_no_numeric_id_witness :
  get_next_id (students world_text_id) = 1
  /\ students (snd (add_new_student world_text_id))
     = [mkStudent "A-7" "Bob" 21 "11th" 3%float;
        mkStudent "1" "Eve" 19 "12th" 3.75%float].
Proof.
  assert (H1 : students world_text_id <> []) by discriminate.
  assert (H2 : forall s, In s (students world_text_id) ->
                         int_of_str (id s) = None).
  { intros s [<-|[]]. reflexivity. }
  destruct (get_next_id_no_numeric_id world_text_id H1 H2) as [E [_ H]].
  split; [exact E|].
  apply (H "Eve" "19" "12th" "3.75" [] 19 3.75%float);
    [reflexivity|discriminate|reflexivity|vm_compute; reflexivity].
Defined.

End NextIdClaims.

(** ** Update and delete *)

Section UpdateDelete.

Ltac run_io :=
  unfold mbind, print, modify, get, input, set_students, lift, ret, ask;
  cbn [students stdin stdout tl fst snd].

Lemma locate_none student_id l :
  locate student_id l = None <->
  forall s, In s l -> id s <> student_id.
Proof.
  induction l as [|t r IH]; simpl.
  - split; [intros _ s []|reflexivity].
  - destruct (String.eqb_spec (id t) student_id) as [E|E].
    + split; [discriminate|]. intros H. destruct (H t (or_introl eq_refl) E).
    + destruct (locate student_id r) as [[i u]|].
      * split; [discriminate|]. intros H.
        assert (H' : Some (i, u) = None); [|discriminate H'].
        apply IH. intros s Hs. apply H. right; exact Hs.
      * split; [|reflexivity]. intros _ s [<-|Hs]; [exact E|].
        apply (proj1 IH eq_refl s Hs).
Qed.

(** [locate] finds the first student with the id: the one after a
    stretch of students with other ids. *)
Lemma locate_first student_id pre s post :
  (forall t, In t pre -> id t <> student_id) -> id s = student_id ->
  locate student_id (pre ++ s :: post) = Some (List.length pre, s).
Proof.
  intros Hpre Hs. induction pre as [|t r IH]; simpl.
  - rewrite (proj2 (String.eqb_eq _ _) Hs). reflexivity.
  - destruct (String.eqb_spec (id t) student_id) as [E|E].
    + destruct (Hpre t (or_introl eq_refl) E).
    + rewrite IH; [reflexivity|]. intros u Hu. apply Hpre. right; exact Hu.
Qed.

Lemma locate_some student_id l i s :
  locate student_id l = Some (i, s) ->
  exists pre post,
    l = (pre ++ s :: post)%list /\ List.length pre = i /\ id s = student_id
    /\ forall t, In t pre -> id t <> student_id.
Proof.
  revert i. induction l as [|t r IH]; simpl; intros i H; [discriminate|].
  destruct (String.eqb_spec (id t) student_id) as [E|E].
  - injection H as <- <-. exists [], r.
    split; [reflexivity|]. split; [reflexivity|]. split; [exact E|].
    intros u Hu. destruct Hu.
  - destruct (locate student_id r) as [[j u]|]; [|discriminate].
    injection H as <- <-.
    destruct (IH j eq_refl) as [pre [post [-> [Hlen [Hid Hpre]]]]].
    exists (t :: pre), post.
    split; [reflexivity|]. split; [simpl; congruence|]. split; [exact Hid|].
    intros v [<-|Hv]; [exact E|apply Hpre; exact Hv].
Qed.

Lemma locate_present student_id l s :
  In s l -> id s = student_id ->
  exists i t, locate student_id l = Some (i, t).
Proof.
  intros Hin Hid. destruct (locate student_id l) as [[i t]|] eqn:E.
  - exists i, t. reflexivity.
  - destruct (proj1 (locate_none _ _) E s Hin Hid).
Qed.

Lemma remove_at_middle (pre : list Student) s post :
  remove_at (List.length pre) (pre ++ s :: post) = (pre ++ post)%list.
Proof.
  unfold remove_at. induction pre as [|t r IH]; simpl; [reflexivity|].
  f_equal. exact IH.
Qed.

Definition id_prompt : string :=
  nl ++ "Enter the ID of the student to Update or Delete: ".
Definition action_prompt : string :=
  nl ++ "Enter action (U for Update / D for Delete): ".
Definition found_banner : string := nl ++ "--- Student Found ---".
Definition not_found_line (student_id : string) : string :=
  "Student with ID " ++ student_id ++ " not found.".
Definition deleted_line (student_id : string) (s : Student) : string :=
  check_mark ++ " Student ID " ++ student_id ++ " (" ++ name s
    ++ ") has been **DELETED**.".
Definition updated_line (student_id : string) (s : Student) : string :=
  check_mark ++ " Student ID " ++ student_id ++ " (" ++ name s
    ++ ") has been **UPDATED**.".
Definition invalid_action_line : string :=
  "Invalid action. Operation cancelled.".

(** C6: the id typed is compared, after [strip], with the ids of the
    list by equality of text; the target is the first student with that
    id.  With action D the list loses exactly that student, the others
    keeping their order, and is one shorter.  With no such student the
    list is unchanged and the not-found line is printed. *)
Theorem update_and_delete_delete (w : world) (l : string)
    (rest : list string) :
  stdin w = l :: rest ->
  ((forall s, In s (students w) -> id s <> strip l) ->
   update_and_delete w
   = (Ok tt,
      mkWorld (students w) rest
        (stdout w ++ [Prompt id_prompt; Line (not_found_line (strip l))])))
  /\ (forall pre s post l2 rest2,
        students w = (pre ++ s :: post)%list ->
        (forall t, In t pre -> id t <> strip l) ->
        id s = strip l ->
        rest = l2 :: rest2 ->
        upper (strip l2) = "D" ->
        update_and_delete w
        = (Ok tt,
           mkWorld (pre ++ post) rest2
             (stdout w
              ++ [Prompt id_prompt; Line found_banner; Line (Student_str s);
                  Prompt action_prompt; Line (deleted_line (strip l) s)]))
        /\ S (List.length (pre ++ post)) = List.length (students w)).
Proof.
  intros Hin. split.
  - intros Habsent. apply locate_none in Habsent.
    unfold update_and_delete. run_io. rewrite Hin. run_io.
    rewrite Habsent. run_io. rewrite <- app_assoc. reflexivity.
  - intros pre s post l2 rest2 Hst Hpre Hid -> HD. split.
    + unfold update_and_delete. run_io. rewrite Hin. run_io.
      rewrite Hst, (locate_first _ _ _ _ Hpre Hid). run_io.
      rewrite HD. cbn [String.eqb Ascii.eqb Bool.eqb]. run_io.
      rewrite remove_at_middle. repeat rewrite <- app_assoc. reflexivity.
    + rewrite Hst, !length_app. simpl. lia.
Qed.

Definition world_delete : world :=
  mkWorld roster_1001_1002_1050 [" 1002 "; "d"] [].

Lemma update_and_delete_delete_witness :
  students (snd (update_and_delete world_delete))
  = [mkStudent "1001" "Ann" 20 "10th" 3.5%float;
     mkStudent "1050" "Cid" 22 "12th" 2.5%float].
Proof.
  pose proof (update_and_delete_delete world_delete " 1002 " ["d"] eq_refl)
    as [_ H].
  destruct (H [mkStudent "1001" "Ann" 20 "10th" 3.5%float]
              (mkStudent "1002" "Bob" 21 "11th" 3%float)
              [mkStudent "1050" "Cid" 22 "12th" 2.5%float] "d" [])
    as [E _].
  - reflexivity.
  - intros t [<-|[]]. discriminate.
  - reflexivity.
  - reflexivity.
  - reflexivity.
  - rewrite E. reflexivity.
Defined.

(** The comparison of ids is exact: an id that differs in the case of a
    letter is not found. *)
Example update_and_delete_case_sensitive :
  update_and_delete
    (mkWorld [mkStudent "a7" "Ann" 20 "10th" 3.5%float] ["A7"; "D"] [])
  = (Ok tt,
     mkWorld [mkStudent "a7" "Ann" 20 "10th" 3.5%float] ["D"]
       [Prompt id_prompt; Line (not_found_line "A7")]).
Proof. reflexivity. Qed.

Definition update_banner : string :=
  nl ++ "--- Update Student Details --- (Press Enter to keep current value)".

(** C8: with action U and a blank answer at each of the four prompts,
    the list after the operation is the list before it: same students,
    same order, every field of every student as it was. *)
Theorem update_all_blank (w : world) (l l2 a b c d : string)
    (rest : list string) :
  stdin w = l :: l2 :: a :: b :: c :: d :: rest ->
  (exists s, In s (students w) /\ id s = strip l) ->
  upper (strip l2) = "U" ->
  strip a = "" -> strip b = "" -> strip c = "" -> strip d = "" ->
  exists s,
    In s (students w) /\ id s = strip l
    /\ update_and_delete w
       = (Ok tt,
          mkWorld (students w) rest
            (stdout w
             ++ [Prompt id_prompt; Line found_banner; Line (Student_str s);
                 Prompt action_prompt; Line update_banner;
                 Prompt ("New Name (" ++ name s ++ "): ");
                 Prompt ("New Age (" ++ str_of_int (age s) ++ "): ");
                 Prompt ("New Grade (" ++ grade s ++ "): ");
                 Prompt ("New GPA (" ++ format_2f (gpa s) ++ "): ");
                 Line (updated_line (strip l) s)])).
Proof.
  intros Hin [s0 [Hs0 Hid0]] HU Ha Hb Hc Hd.
  destruct (locate_present _ _ _ Hs0 Hid0) as [i [s Hloc]].
  destruct (locate_some _ _ _ _ Hloc) as [pre [post [Hst [_ [Hid _]]]]].
  exists s. split; [rewrite Hst; apply in_elt|]. split; [exact Hid|].
  unfold update_and_delete. run_io. rewrite Hin. run_io.
  rewrite Hloc. run_io. rewrite HU. cbn [String.eqb Ascii.eqb Bool.eqb].
  unfold update_student. run_io. rewrite Ha. cbn [is_empty]. run_io.
  cbn [ask_lines]. unfold judge_new_age at 1. rewrite Hb. cbn [is_empty].
  run_io. rewrite Hc. cbn [is_empty]. run_io.
  cbn [ask_lines]. unfold judge_new_gpa at 1. rewrite Hd. cbn [is_empty].
  run_io. repeat rewrite <- app_assoc. reflexivity.
Qed.

Definition world_update_blank : world :=
  mkWorld roster_1001_1002_1050 ["1002"; "u"; ""; ""; ""; ""] [].

Lemma update_all_blank_witness :
  students (snd (update_and_delete world_update_blank))
  = students world_update_blank.
Proof.
  destruct (update_all_blank world_update_blank "1002" "u" "" "" "" "" [])
    as [s [_ [_ E]]].
  - reflexivity.
  - exists (mkStudent "1002" "Bob" 21 "11th" 3%float).
    split; [right; left; reflexivity|reflexivity].
  - reflexivity.
  - reflexivity.
  - reflexivity.
  - reflexivity.
  - reflexivity.
  - rewrite E. reflexivity.
Defined.

(** C9: with an action that, stripped and in upper case, is neither D
    nor U, the operation prints the invalid-action line and ends; the
    list and every student of it are as before. *)
Theorem update_and_delete_invalid_action (w : world) (l l2 : string)
    (rest : list string) :
  stdin w = l :: l2 :: rest ->
  (exists s, In s (students w) /\ id s = strip l) ->
  upper (strip l2) <> "D" ->
  upper (strip l2) <> "U" ->
  exists s,
    In s (students w) /\ id s = strip l
    /\ update_and_delete w
       = (Ok tt,
          mkWorld (students w) rest
            (stdout w
             ++ [Prompt id_prompt; Line found_banner; Line (Student_str s);
                 Prompt action_prompt; Line invalid_action_line])).
Proof.
  intros Hin [s0 [Hs0 Hid0]] HD HU.
  destruct (locate_present _ _ _ Hs0 Hid0) as [i [s Hloc]].
  destruct (locate_some _ _ _ _ Hloc) as [pre [post [Hst [_ [Hid _]]]]].
  exists s. split; [rewrite Hst; apply in_elt|]. split; [exact Hid|].
  unfold update_and_delete. run_io. rewrite Hin. run_io.
  rewrite Hloc. run_io.
  rewrite (proj2 (String.eqb_neq _ _) HD), (proj2 (String.eqb_neq _ _) HU).
  run_io. repeat rewrite <- app_assoc. reflexivity.
Qed.

Definition world_invalid_action : world :=
  mkWorld roster_1001_1002_1050 ["1002"; "x"; "left"] [].

Lemma update_and_delete_invalid_action_witness :
  students (snd (update_and_delete world_invalid_action))
  = roster_1001_1002_1050
  /\ stdin (snd (update_and_delete world_invalid_action)) = ["left"].
Proof.
  destruct (update_and_delete_invalid_action world_invalid_action
              "1002" "x" ["left"]) as [s [_ [_ E]]].
  - reflexivity.
  - exists (mkStudent "1002" "Bob" 21 "11th" 3%float).
    split; [right; left; reflexivity|reflexivity].
  - discriminate.
  - discriminate.
  - rewrite E. split; reflexivity.
Defined.

End UpdateDelete.

(** ** Search *)



(** [found] is [l] cut down to the items with [P], in the order of [l]. *)
Inductive selection {A : Type} (P : A -> Prop) : list A -> list A -> Prop :=
| selection_nil : selection P [] []
| selection_keep a l found :
    P a -> selection P l found -> selection P (a :: l) (a :: found)
| selection_drop a l found :
    ~ P a -> selection P l found -> selection P (a :: l) found.

Section Search.








(** A selection is determined by the list and the property. *)
Lemma selection_unique {A : Type} (P : A -> Prop) l :
  forall f1 f2 : list A, selection P l f1 -> selection P l f2 -> f1 = f2.
Proof.
  induction l as [|a l IH]; intros f1 f2 H1 H2;
    inversion H1; subst; inversion H2; subst;
    try reflexivity; try contradiction.
  - f_equal. apply IH; assumption.
  - apply IH; assumption.
Qed.

Lemma print_each_run l w :
  print_each l w
  = (Ok tt,
     mkWorld (students w) (stdin w)
       (stdout w ++ map (fun s => Line (Student_str s)) l)).
Proof.
  revert w. induction l as [|s l IH]; intros w; simpl.
  - unfold ret. rewrite app_nil_r. destruct w; reflexivity.
  - unfold mbind, print, modify. rewrite IH. cbn [students stdin stdout].
    rewrite <- app_assoc. reflexivity.
Qed.





End Search.

(** ** The order of floats that are numbers *)

(** A float that is not NaN. *)
Definition numeric (x : float) : Prop := PrimFloat.is_nan x = false.





Section FloatOrder.











End FloatOrder.

(** ** Average and topper *)

Section Aggregate.
















End Aggregate.

(** ** Loading *)

(** The fallbacks of the constructor on the text of a cell. *)
Definition age_of_cell (a : string) : Z :=
  match int_of_str a with Some n => n | None => 0 end.

Definition gpa_of_cell (p : string) : float :=
  match float_of_str p with Some x => x | None => 0%float end.

(** What one line of the file is to give, by its cells: a blank line
    gives nothing; a line with one to four cells gives nothing but the
    diagnostic; a line with five cells or more gives one student, from
    its first five cells. *)
Definition expected_of_row (cells : list string) : list Student * list out :=
  match cells with
  | [] => ([], [])
  | i :: n :: a :: g :: p :: _ =>
      ([mkStudent i n (age_of_cell a) g (gpa_of_cell p)], [])
  | _ =>
      ([], [Report (SkippingCorruptedRecord
                      (DictReader_row FIELDNAMES cells) TypeError)])
  end.

Definition expected_students (rows : list (list string)) : list Student :=
  flat_map (fun cells => fst (expected_of_row cells)) rows.

Definition expected_output (rows : list (list string)) : list out :=
  flat_map (fun cells => snd (expected_of_row cells)) rows.

Section Loading.

Lemma Student_init_cells i n a g p :
  Student_init (VStr i) (VStr n) (VStr a) (VStr g) (VStr p)
  = Ok (mkStudent i n (age_of_cell a) g (gpa_of_cell p)).
Proof.
  unfold Student_init, py_int, py_float, age_of_cell, gpa_of_cell.
  destruct (int_of_str a); destruct (float_of_str p); reflexivity.
Qed.

(** With no GPA cell the constructor raises [TypeError], whether the Age
    cell is missing too or holds any text. *)
Lemma Student_init_no_gpa i n a g :
  a = VNone \/ (exists t, a = VStr t) ->
  Student_init i n a g VNone = Raise TypeError.
Proof.
  intros [->|[t ->]]; [reflexivity|].
  unfold Student_init, py_int. destruct (int_of_str t); reflexivity.
Qed.

(** The loop body on the dict of one non-blank row. *)
Lemma load_row_run c cells st :
  load_row (DictReader_row FIELDNAMES (c :: cells)) st
  = (Ok tt,
     mkLoading (loaded st ++ fst (expected_of_row (c :: cells)))
       (printed st ++ snd (expected_of_row (c :: cells)))).
Proof.
  destruct cells as [|n [|a [|g [|p more]]]].
  1-4: unfold load_row, try_catch, mbind, lift;
       cbv -[app Student_init append_loaded print_loading];
       rewrite Student_init_no_gpa by (first [left; reflexivity
                                              |right; eexists; reflexivity]);
       rewrite app_nil_r; reflexivity.
  assert (E : load_row (DictReader_row FIELDNAMES (c :: n :: a :: g :: p :: more))
              = (try_catch
                   (student <- lift (Student_init (VStr c) (VStr n) (VStr a)
                                       (VStr g) (VStr p)) ;;
                    append_loaded student)
                   is_Exception
                   (fun e => print_loading
                               (Report (SkippingCorruptedRecord
                                          (DictReader_row FIELDNAMES
                                             (c :: n :: a :: g :: p :: more))
                                          e))))).
  { destruct more; reflexivity. }
  rewrite E, Student_init_cells.
  unfold try_catch, mbind, lift, append_loaded, modify.
  cbn [expected_of_row fst snd loaded printed]. rewrite app_nil_r.
  reflexivity.
Qed.

Lemma load_rows_run rows : forall fault st,
  load_rows rows fault st
  = (match fault with Some e => Raise e | None => Ok tt end,
     mkLoading (loaded st ++ expected_students rows)
       (printed st ++ expected_output rows)).
Proof.
  induction rows as [|cells rows IH]; intros fault st.
  - unfold expected_students, expected_output. simpl.
    rewrite !app_nil_r. destruct st. destruct fault; reflexivity.
  - destruct cells as [|c cells].
    + cbn [load_rows]. rewrite IH. reflexivity.
    + cbn [load_rows]. unfold mbind. rewrite load_row_run, IH.
      cbn [loaded printed]. unfold expected_students, expected_output.
      cbn [flat_map]. rewrite !app_assoc. reflexivity.
Qed.

Lemma DictReader_next_header header rows fault :
  header <> [] ->
  DictReader_next (header :: rows) fault
  = Ok (DictReader_row FIELDNAMES header, rows).
Proof. destruct header; [congruence|reflexivity]. Qed.

Lemma load_students_never_raises d :
  exists l o d', load_students d = (Ok l, o, d').
Proof.
  unfold load_students. destruct (content d) as [rows|].
  - unfold try_catch, mbind, lift, get, ret, print_loading, modify.
    destruct (DictReader_next rows (read_fault d)) as [[row rest]|e].
    + rewrite load_rows_run. cbn [snd]. destruct (read_fault d).
      * cbn. eexists _, _, _. reflexivity.
      * cbn. eexists _, _, _. reflexivity.
    + cbn. eexists _, _, _. reflexivity.
  - destruct (write_fault d) as [e|].
    + cbn. eexists _, _, _. reflexivity.
    + eexists _, _, _. reflexivity.
Qed.

(** Loading a file that has a header line. *)
Lemma load_students_rows d header rows :
  content d = Some (header :: rows) -> header <> [] ->
  load_students d
  = (Ok (expected_students rows),
     (expected_output rows
      ++ match read_fault d with
         | Some e => [Report (ErrorDuringLoading e)]
         | None => []
         end)%list,
     d).
Proof.
  intros Hc Hh. unfold load_students. rewrite Hc.
  unfold try_catch, mbind, lift, get, ret, print_loading, modify.
  rewrite (DictReader_next_header _ _ _ Hh), load_rows_run. cbn [snd].
  destruct (read_fault d); cbn; rewrite ?app_nil_r; reflexivity.
Qed.

Definition disk_blank_line : disk :=
  mkDisk (Some [FIELDNAMES; []; ["1001"; "Ann"; "20"; "10th"; "3.5"]])
    None None.

(** C3, as the claim states it, fails on a blank line: the second line
    of this file has none of the five fields and is passed over, and
    nothing is printed for it. *)
Lemma load_students_blank_line :
  load_students disk_blank_line
  = (Ok [mkStudent "1001" "Ann" 20 "10th" 3.5%float], [], disk_blank_line).
Proof. vm_compute. reflexivity. Qed.

(** C3, amended: [load_students] returns a list on every file, whatever
    the file holds, and never raises.  On a file with a header line it
    returns the students of the lines after the header, line by line: a
    blank line gives nothing and no diagnostic; a line with one to four
    cells gives nothing and the skipping diagnostic; a line with five
    cells or more gives a student whose id, name and grade are the cells
    and whose age and gpa are the numbers read from their cells, 0 and
    0.0 standing in for a cell that does not read as a number.  A fault
    met while reading adds its diagnostic after those lines. *)
Theorem load_students_correct :
  (forall d, exists l o d', load_students d = (Ok l, o, d'))
  /\ (forall d header rows,
        content d = Some (header :: rows) -> header <> [] ->
        load_students d
        = (Ok (expected_students rows),
           (expected_output rows
            ++ match read_fault d with
               | Some e => [Report (ErrorDuringLoading e)]
               | None => []
               end)%list,
           d))
  /\ expected_of_row [] = ([], [])
  /\ (forall c cells,
        (List.length (c :: cells) < 5)%nat ->
        expected_of_row (c :: cells)
        = ([], [Report (SkippingCorruptedRecord
                          (DictReader_row FIELDNAMES (c :: cells))
                          TypeError)]))
  /\ (forall i n a g p more,
        exists s,
          expected_of_row (i :: n :: a :: g :: p :: more) = ([s], [])
          /\ id s = i /\ name s = n /\ grade s = g
          /\ (forall v, int_of_str a = Some v -> age s = v)
          /\ (int_of_str a = None -> age s = 0)
          /\ (forall x, float_of_str p = Some x -> gpa s = x)
          /\ (float_of_str p = None -> gpa s = 0%float)).
Proof.
  split; [exact load_students_never_raises|]. split; [|split; [|split]].
  - exact load_students_rows.
  - reflexivity.
  - intros c cells Hlen.
    destruct cells as [|n [|a [|g [|p more]]]]; try reflexivity.
    simpl in Hlen. lia.
  - intros i n a g p more.
    exists (mkStudent i n (age_of_cell a) g (gpa_of_cell p)).
    cbn [expected_of_row id name grade age gpa].
    unfold age_of_cell, gpa_of_cell.
    repeat split; try (intros v Hv; rewrite Hv; reflexivity);
      intros Hn; rewrite Hn; reflexivity.
Qed.

Definition disk_mixed : disk :=
  mkDisk (Some [FIELDNAMES;
                ["1001"; "Ann"; "abc"; "10th"; "x.y"];
                ["1002"; "Bob"];
                ["1003"; "Cid"; "22"; "12th"; "2.5"]]) None None.

(** The theorem on a file with an unreadable age and gpa in one line and
    a short line: the first line is kept with 0 and 0.0, the short one is
    dropped with its diagnostic. *)
Lemma load_students_correct_witness :
  load_students disk_mixed
  = (Ok [mkStudent "1001" "Ann" 0 "10th" 0%float;
         mkStudent "1003" "Cid" 22 "12th" 2.5%float],
     [Report (SkippingCorruptedRecord
                (DictReader_row FIELDNAMES ["1002"; "Bob"]) TypeError)],
     disk_mixed).
Proof.
  destruct load_students_correct as [_ [H _]].
  rewrite (H disk_mixed FIELDNAMES
             [["1001"; "Ann"; "abc"; "10th"; "x.y"];
              ["1002"; "Bob"];
              ["1003"; "Cid"; "22"; "12th"; "2.5"]] eq_refl);
    [vm_compute; reflexivity|discriminate].
Defined.

End Loading.

(** ** A frame rule for the operations

    [triple P R m Q]: from a world with [P], running [m] leads to a world
    related to the first by [R], and a value it returns has [Q]. *)

Section Frame.

Variable P : world -> Prop.
Variable R : world -> world -> Prop.

Hypothesis R_same_roster : forall w w', students w' = students w -> R w w'.
Hypothesis R_trans : forall a b c, R a b -> R b c -> R a c.
Hypothesis P_R : forall w w', P w -> R w w' -> P w'.

Definition triple {A : Type} (m : M world A) (Q : A -> Prop) : Prop :=
  forall w, P w ->
    R w (snd (m w)) /\ forall a, fst (m w) = Ok a -> Q a.

Lemma triple_bind {A B : Type} (m : M world A) (k : A -> M world B)
    (Q : A -> Prop) (Q' : B -> Prop) :
  triple m Q -> (forall a, Q a -> triple (k a) Q') ->
  triple (mbind m k) Q'.
Proof.
  intros Hm Hk w Hw. destruct (Hm w Hw) as [H1 H2]. unfold mbind.
  destruct (m w) as [[a|e] w'] eqn:E; cbn [fst snd] in *.
  - destruct (Hk a (H2 a eq_refl) w' (P_R _ _ Hw H1)) as [H3 H4].
    split; [apply (R_trans _ _ _ H1 H3)|exact H4].
  - split; [exact H1|]. intros a Ha. discriminate.
Qed.

Lemma triple_ret {A : Type} (a : A) (Q : A -> Prop) :
  Q a -> triple (ret a) Q.
Proof.
  intros Ha w _. split; [apply R_same_roster; reflexivity|].
  intros b Hb. injection Hb as <-. exact Ha.
Qed.

Lemma triple_print s : triple (print s) (fun _ => True).
Proof. intros w _. split; [apply R_same_roster; reflexivity|auto]. Qed.

Lemma triple_input prompt : triple (input prompt) (fun _ => True).
Proof.
  intros w _. split; [|auto]. apply R_same_roster.
  unfold input. destruct (stdin w); reflexivity.
Qed.

Lemma triple_get : triple get (fun _ => True).
Proof. intros w _. split; [apply R_same_roster; reflexivity|auto]. Qed.

Lemma triple_ask {A : Type} prompt (judge : string -> verdict A) :
  triple (ask prompt judge) (fun _ => True).
Proof.
  intros w _. split; [|auto]. apply R_same_roster. unfold ask.
  destruct (ask_lines prompt judge (stdin w)) as [[r rest] o]. reflexivity.
Qed.

Lemma triple_print_each l : triple (print_each l) (fun _ => True).
Proof.
  intros w _. split; [|auto]. apply R_same_roster.
  rewrite print_each_run. reflexivity.
Qed.

End Frame.

(** ** Unique ids *)

Definition unique_ids (l : list Student) : Prop := NoDup (map id l).

(** The operations the menu of [main] offers on the list. *)
Inductive operation : Type :=
| OpAdd
| OpView
| OpSearch
| OpUpdateDelete
| OpAggregate.

Definition run_operation (op : operation) : M world unit :=
  match op with
  | OpAdd => add_new_student
  | OpView => view_all_students
  | OpSearch => students_search
  | OpUpdateDelete => update_and_delete
  | OpAggregate => calculate_avg_and_topper
  end.

(** The lists that operations lead to from [start], whatever is typed
    and whether an operation ends or is cut short by the end of input. *)
Inductive reachable_from (start : list Student) : list Student -> Prop :=
| reach_start : reachable_from start start
| reach_step w op :
    reachable_from start (students w) ->
    reachable_from start (students (snd (run_operation op w))).

(** The lists the program can hold: those reached from the list that
    [load_students] returns on some file. *)
Definition reachable (l : list Student) : Prop :=
  exists d loaded_list,
    fst (fst (load_students d)) = Ok loaded_list
    /\ reachable_from loaded_list l.

Section Uniqueness.

Definition same_roster (w w' : world) : Prop := students w' = students w.
Definition same_ids (w w' : world) : Prop :=
  map id (students w') = map id (students w).
Definition id_at (i : nat) (x : string) (w : world) : Prop :=
  nth_error (map id (students w)) i = Some x.

Definition no_condition (w : world) : Prop := True.

Definition unchanged {A : Type} (m : M world A) : Prop :=
  triple no_condition same_roster m (fun _ => True).

Lemma unchanged_bind {A B : Type} (m : M world A) (k : A -> M world B) :
  unchanged m -> (forall a, unchanged (k a)) -> unchanged (mbind m k).
Proof.
  intros Hm Hk. apply (triple_bind no_condition same_roster) with (Q := fun _ => True).
  - unfold same_roster. intros a b c H1 H2. now rewrite H2.
  - intros w w' _ _. exact I.
  - exact Hm.
  - intros a _. apply Hk.
Qed.

Lemma same_roster_refl w w' : students w' = students w -> same_roster w w'.
Proof. auto. Qed.

Ltac unchanged_leaf :=
  first [ apply (triple_print no_condition same_roster same_roster_refl)
        | apply (triple_input no_condition same_roster same_roster_refl)
        | apply (triple_get no_condition same_roster same_roster_refl)
        | apply (triple_ask no_condition same_roster same_roster_refl)
        | apply (triple_print_each no_condition same_roster same_roster_refl)
        | apply (triple_ret no_condition same_roster same_roster_refl);
          exact I ].

Ltac unchanged_step :=
  first [ unchanged_leaf
        | apply unchanged_bind; [unchanged_leaf|intros ?] ].

Lemma view_all_students_unchanged : unchanged view_all_students.
Proof.
  unfold view_all_students. do 2 unchanged_step.
  match goal with |- context [students ?w] => destruct (students w) end;
    repeat unchanged_step.
Qed.

Lemma students_search_unchanged : unchanged students_search.
Proof.
  unfold students_search. unchanged_step.
  match goal with |- context [is_empty ?q] => destruct (is_empty q) end;
    [unchanged_step|].
  unchanged_step. cbv zeta.
  match goal with |- context [filter ?p ?l] => destruct (filter p l) end;
    repeat unchanged_step.
Qed.

Lemma calculate_avg_and_topper_unchanged : unchanged calculate_avg_and_topper.
Proof.
  unfold calculate_avg_and_topper. unchanged_step.
  match goal with |- context [students ?w] => destruct (students w) end;
    repeat unchanged_step.
Qed.

Lemma unchanged_roster {A : Type} (m : M world A) w :
  unchanged m -> students (snd (m w)) = students w.
Proof. intros H. exact (proj1 (H w I)). Qed.

(** Assignments to the object at position [i] keep the ids of the list
    when the object keeps its id. *)
Lemma map_id_replace_at i s' l :
  nth_error (map id l) i = Some (id s') ->
  map id (replace_at i s' l) = map id l.
Proof.
  unfold replace_at. revert i. induction l as [|t r IH]; intros i H.
  - destruct i; discriminate.
  - destruct i as [|i]; simpl in *.
    + injection H as ->. reflexivity.
    + f_equal. apply IH. exact H.
Qed.

Section Updating.

Variable i : nat.
Variable x : string.

Definition keeps_ids {A : Type} (m : M world A) (Q : A -> Prop) : Prop :=
  triple (id_at i x) same_ids m Q.

Lemma same_ids_of_roster w w' : students w' = students w -> same_ids w w'.
Proof. unfold same_ids. now intros ->. Qed.

Lemma same_ids_trans a b c : same_ids a b -> same_ids b c -> same_ids a c.
Proof. unfold same_ids. intros H1 H2. now rewrite H2. Qed.

Lemma id_at_same_ids w w' : id_at i x w -> same_ids w w' -> id_at i x w'.
Proof. unfold id_at, same_ids. intros H1 H2. now rewrite H2. Qed.

Lemma keeps_ids_bind {A B : Type} (m : M world A) (k : A -> M world B)
    (Q : A -> Prop) (Q' : B -> Prop) :
  keeps_ids m Q -> (forall a, Q a -> keeps_ids (k a) Q') ->
  keeps_ids (mbind m k) Q'.
Proof. apply triple_bind; [exact same_ids_trans|exact id_at_same_ids]. Qed.

Lemma keeps_ids_assign s' :
  id s' = x ->
  keeps_ids (set_students (replace_at i s')) (fun _ => True).
Proof.
  intros Hs w Hw. split; [|auto]. unfold same_ids.
  cbn [set_students modify snd students].
  apply map_id_replace_at. rewrite Hs. exact Hw.
Qed.

Lemma keeps_ids_assigned s' :
  id s' = x ->
  keeps_ids (set_students (replace_at i s') ;; ret s') (fun t => id t = x).
Proof.
  intros Hs. apply keeps_ids_bind with (Q := fun _ => True).
  - apply keeps_ids_assign, Hs.
  - intros _ _. apply (triple_ret _ _ same_ids_of_roster). exact Hs.
Qed.

Lemma update_student_keeps_ids student_id s :
  id s = x -> keeps_ids (update_student student_id i s) (fun _ => True).
Proof.
  intros Hs. unfold update_student.
  apply keeps_ids_bind with (Q := fun _ => True);
    [apply (triple_print _ _ same_ids_of_roster)|intros _ _].
  apply keeps_ids_bind with (Q := fun _ => True);
    [apply (triple_input _ _ same_ids_of_roster)|intros l _].
  apply keeps_ids_bind with (Q := fun t => id t = x).
  { destruct (is_empty (strip l));
      [apply (triple_ret _ _ same_ids_of_roster); exact Hs
      |apply keeps_ids_assigned; exact Hs]. }
  intros s1 H1.
  apply keeps_ids_bind with (Q := fun _ => True);
    [apply (triple_ask _ _ same_ids_of_roster)|intros new_age _].
  apply keeps_ids_bind with (Q := fun t => id t = x).
  { destruct new_age;
      [apply keeps_ids_assigned; exact H1
      |apply (triple_ret _ _ same_ids_of_roster); exact H1]. }
  intros s2 H2.
  apply keeps_ids_bind with (Q := fun _ => True);
    [apply (triple_input _ _ same_ids_of_roster)|intros l' _].
  apply keeps_ids_bind with (Q := fun t => id t = x).
  { destruct (is_empty (strip l'));
      [apply (triple_ret _ _ same_ids_of_roster); exact H2
      |apply keeps_ids_assigned; exact H2]. }
  intros s3 H3.
  apply keeps_ids_bind with (Q := fun _ => True);
    [apply (triple_ask _ _ same_ids_of_roster)|intros new_gpa _].
  apply keeps_ids_bind with (Q := fun t => id t = x).
  { destruct new_gpa;
      [apply keeps_ids_assigned; exact H3
      |apply (triple_ret _ _ same_ids_of_roster); exact H3]. }
  intros s4 _. apply (triple_print _ _ same_ids_of_roster).
Qed.

End Updating.

End Uniqueness.

Section UniquenessClaims.

Lemma NoDup_snoc {A : Type} (l : list A) (a : A) :
  NoDup l -> ~ In a l -> NoDup (l ++ [a]).
Proof.
  induction l as [|b l IH]; intros Hl Ha; simpl.
  - constructor; [intros []|constructor].
  - inversion Hl as [|? ? Hb Hl']; subst. constructor.
    + rewrite in_app_iff. intros [H|[H|[]]]; [exact (Hb H)|].
      apply Ha. left. symmetry. exact H.
    + apply IH; [exact Hl'|]. intros H. apply Ha. right. exact H.
Qed.

Lemma add_new_student_unique w :
  unique_ids (students w) -> unique_ids (students (snd (add_new_student w))).
Proof.
  intros Hu.
  destruct (add_new_student_roster w) as [E|[n [a [g [x [E _]]]]]];
    rewrite E; [exact Hu|].
  unfold unique_ids. rewrite map_app. apply NoDup_snoc; [exact Hu|].
  cbn [map id]. rewrite in_map_iff. intros [s [Hid Hs]].
  exact (next_id_fresh _ _ Hs Hid).
Qed.

Lemma update_and_delete_unique w :
  unique_ids (students w) ->
  unique_ids (students (snd (update_and_delete w))).
Proof.
  intros Hu. unfold update_and_delete, mbind, input, get, print,
    set_students, modify.
  cbn [students stdin stdout].
  destruct (stdin w) as [|l rest]; [exact Hu|].
  cbn [tl students stdin stdout].
  destruct (locate (strip l) (students w)) as [[i s]|] eqn:Hloc;
    [|exact Hu].
  destruct (locate_some _ _ _ _ Hloc) as [pre [post [Hst [Hlen [Hid _]]]]].
  cbn [students stdin stdout].
  destruct rest as [|l2 rest2]; [exact Hu|].
  cbn [tl students stdin stdout].
  destruct (String.eqb (upper (strip l2)) "D").
  - cbn [students snd]. rewrite Hst, <- Hlen, remove_at_middle.
    unfold unique_ids in *. rewrite Hst, map_app in Hu. rewrite map_app.
    cbn [map] in Hu. exact (NoDup_remove_1 _ _ _ Hu).
  - destruct (String.eqb (upper (strip l2)) "U"); [|exact Hu].
    match goal with
    | |- unique_ids (students (snd (update_student _ _ _ ?w2))) =>
        destruct (update_student_keeps_ids i (id s) (strip l) s eq_refl w2)
          as [E _]
    end.
    + unfold id_at. cbn [students]. rewrite Hst, <- Hlen, map_app.
      rewrite nth_error_app2 by (rewrite length_map; lia).
      rewrite length_map, Nat.sub_diag. reflexivity.
    + unfold same_ids in E. cbn [students] in E. unfold unique_ids.
      rewrite E. exact Hu.
Qed.

Lemma run_operation_unique op w :
  unique_ids (students w) ->
  unique_ids (students (snd (run_operation op w))).
Proof.
  intros Hu. destruct op; cbn [run_operation].
  - apply add_new_student_unique, Hu.
  - rewrite (unchanged_roster _ _ view_all_students_unchanged). exact Hu.
  - rewrite (unchanged_roster _ _ students_search_unchanged). exact Hu.
  - apply update_and_delete_unique, Hu.
  - rewrite (unchanged_roster _ _ calculate_avg_and_topper_unchanged).
    exact Hu.
Qed.

Definition roster_duplicate : list Student :=
  [mkStudent "1001" "Ann" 20 "10th" 3.5%float;
   mkStudent "1001" "Bob" 21 "11th" 3%float].

Definition disk_duplicate : disk :=
  mkDisk (Some [FIELDNAMES;
                ["1001"; "Ann"; "20"; "10th"; "3.5"];
                ["1001"; "Bob"; "21"; "11th"; "3.0"]]) None None.

(** C1, as the claim states it, fails: [load_students] takes the ids of
    the file as they are, so a file with the id 1001 on two lines gives a
    list, held by the program from its start, with two students of id
    1001. *)
Lemma duplicate_ids_loaded :
  load_students disk_duplicate = (Ok roster_duplicate, [], disk_duplicate)
  /\ reachable roster_duplicate
  /\ ~ unique_ids roster_duplicate.
Proof.
  assert (E : load_students disk_duplicate
              = (Ok roster_duplicate, [], disk_duplicate))
    by (vm_compute; reflexivity).
  split; [exact E|]. split.
  - exists disk_duplicate, roster_duplicate. rewrite E.
    split; [reflexivity|apply reach_start].
  - unfold unique_ids. cbn [map roster_duplicate id]. intros H.
    inversion H as [|? ? Hin _]; subst. apply Hin. left. reflexivity.
Qed.

(** C1, amended: when the ids of a list are pairwise distinct, so are
    the ids of every list reached from it by the operations of the menu
    (adding, viewing, searching, updating or deleting, aggregating),
    whatever is typed; so the ids of the program's list are unique at all
    times when they are unique in the list that [load_students] built. *)
Theorem unique_ids_preserved (start l : list Student) :
  unique_ids start -> reachable_from start l -> unique_ids l.
Proof.
  intros Hu Hr. induction Hr as [|w op Hr IH]; [exact Hu|].
  apply run_operation_unique, IH.
Qed.

Definition world_add : world :=
  mkWorld roster_1001_1002_1050 ["Eve"; "19"; "12th"; "3.75"] [].

Lemma unique_ids_preserved_witness :
  unique_ids (students (snd (run_operation OpAdd world_add))).
Proof.
  apply (unique_ids_preserved roster_1001_1002_1050).
  - unfold unique_ids. cbn [map roster_1001_1002_1050 id].
    repeat constructor; cbn [In]; intros H;
      repeat (destruct H as [H|H]; [discriminate H|]); exact H.
  - apply (reach_step roster_1001_1002_1050 world_add OpAdd).
    apply reach_start.
Defined.

End UniquenessClaims.

(** ** Saving and loading again *)

(** The cells [save_students] writes for one student. *)
Definition row_of (s : Student) : list string :=
  [id s; name s; str_of_int (age s); grade s; float_repr (gpa s)].


Definition saved_line : string :=
  nl ++ "--- Data saved successfully to students.txt ---".

Section RoundTrip.

Lemma write_rows_run l : write_rows l = (map row_of l, None).
Proof.
  induction l as [|s l IH]; [reflexivity|].
  cbn [write_rows map].
  replace (DictWriter_row FIELDNAMES (to_dict s)) with (Ok (row_of s))
    by reflexivity.
  rewrite IH. reflexivity.
Qed.




Definition empty_disk : disk := mkDisk None None None.






End RoundTrip.

(** * The main loop *)

Definition waving_hand : string :=
  bytes [195; 176; 197; 184; 226; 128; 152; 226; 128; 185]%N.
Definition cross_mark : string := bytes [195; 162; 197; 146]%N.

Definition menu_lines : list string :=
  [nl ++ string_of_list_ascii (repeat "="%char 46);
   "    STUDENT MANAGEMENT SYSTEM (using Python)";
   string_of_list_ascii (repeat "="%char 46);
   "1. New Student - Add";
   "2. View all students";
   "3. Students search (by ID or Name)";
   "4. Update and Delete";
   "5. Calculate Avg GPA & Find Topper";
   "6. Exit & Save";
   string_of_list_ascii (repeat "-"%char 46)].

Definition choice_prompt : string := "Enter your choice (1-6): ".
Definition goodbye_line : string :=
  waving_hand
    ++ " Thank you for using the Student Management System. Goodbye!".
Definition invalid_choice_line : string :=
  nl ++ cross_mark
    ++ " Invalid choice. Please enter a number between 1 and 6.".

Fixpoint print_all (l : list string) : M world unit :=
  match l with
  | [] => ret tt
  | s :: r => print s ;; print_all r
  end.

(** The head of one round of the loop: the menu, then the choice typed,
    stripped. *)
Definition read_choice : M world string :=
  print_all menu_lines ;;
  l <- input choice_prompt ;;
  ret (strip l).

(** [while True:] of [main], on the file [d] as [load_students] left it.
    Every round reads at least the line of the choice, so [fuel] above
    the number of lines left is never used up (see [main_loop_fuel]).
    Choice 6 saves, prints and ends the loop; an exception of a round
    ends it as it is. *)
Fixpoint main_loop (fuel : nat) (d : disk) (w : world)
  : result unit * world * disk :=
  match fuel with
  | O => (Raise EOFError, w, d)
  | S fuel' =>
      match read_choice w with
      | (Raise e, w1) => (Raise e, w1, d)
      | (Ok choice, w1) =>
          let continue (operation : M world unit) :=
            match operation w1 with
            | (Ok _, w2) => main_loop fuel' d w2
            | (Raise e, w2) => (Raise e, w2, d)
            end in
          if String.eqb choice "1" then continue add_new_student
          else if String.eqb choice "2" then continue view_all_students
          else if String.eqb choice "3" then continue students_search
          else if String.eqb choice "4" then continue update_and_delete
          else if String.eqb choice "5" then continue calculate_avg_and_topper
          else if String.eqb choice "6" then
            let '(r, o, d') := save_students (students w1) d in
            let w2 := mkWorld (students w1) (stdin w1) (stdout w1 ++ o) in
            match r with
            | Ok _ =>
                (Ok tt,
                 mkWorld (students w2) (stdin w2)
                   (stdout w2 ++ [Line goodbye_line]),
                 d')
            | Raise e => (Raise e, w2, d')
            end
          else continue (print invalid_choice_line)
      end
  end.

(** [main], given the file and the lines that will be typed. *)
Definition main (d : disk) (lines : list string)
  : result unit * world * disk :=
  let '(r, o, d1) := load_students d in
  match r with
  | Ok students =>
      main_loop (S (List.length lines)) d1 (mkWorld students lines o)
  | Raise e => (Raise e, mkWorld [] lines o, d1)
  end.

(** ** How the operations treat the console

    [tame m]: [m] never gives typed lines back, and raises nothing but
    [EOFError], which it raises only once every line has been read. *)

Definition tame {A : Type} (m : M world A) : Prop :=
  forall w,
    (List.length (stdin (snd (m w))) <= List.length (stdin w))%nat
    /\ forall e, fst (m w) = Raise e ->
                 e = EOFError /\ stdin (snd (m w)) = [].

Section Console.

Lemma tame_bind {A B : Type} (m : M world A) (k : A -> M world B) :
  tame m -> (forall a, tame (k a)) -> tame (mbind m k).
Proof.
  intros Hm Hk w. destruct (Hm w) as [H1 H2]. unfold mbind.
  destruct (m w) as [[a|e] w1]; cbn [fst snd] in *.
  - destruct (Hk a w1) as [H3 H4]. split; [lia|exact H4].
  - split; [exact H1|]. intros e' E. injection E as <-.
    exact (H2 e eq_refl).
Qed.

Lemma tame_ret {A : Type} (a : A) : tame (ret a).
Proof. intros w. split; [reflexivity|]. intros e H. discriminate H. Qed.

Lemma tame_get : tame get.
Proof. intros w. split; [reflexivity|]. intros e H. discriminate H. Qed.

Lemma tame_print s : tame (print s).
Proof. intros w. split; [reflexivity|]. intros e H. discriminate H. Qed.

Lemma tame_set_students f : tame (set_students f).
Proof. intros w. split; [reflexivity|]. intros e H. discriminate H. Qed.

Lemma tame_lift_ok {A : Type} (a : A) : tame (lift (Ok a)).
Proof. intros w. split; [reflexivity|]. intros e H. discriminate H. Qed.

Lemma tame_input prompt : tame (input prompt).
Proof.
  intros w. unfold input. destruct (stdin w) as [|l rest]; cbn.
  - split; [lia|]. intros e H. injection H as <-. split; reflexivity.
  - split; [lia|]. intros e H. discriminate H.
Qed.

Lemma ask_lines_tame {A : Type} prompt (judge : string -> verdict A) :
  forall lines r rest o,
    ask_lines prompt judge lines = (r, rest, o) ->
    (List.length rest <= List.length lines)%nat
    /\ forall e, r = Raise e -> e = EOFError /\ rest = [].
Proof.
  induction lines as [|l lines IH]; intros r rest o H; cbn in H.
  - injection H as <- <- _. split; [reflexivity|].
    intros e E. injection E as <-. split; reflexivity.
  - destruct (judge l) as [a|message].
    + injection H as <- <- _. split; [cbn; lia|]. intros e E. discriminate E.
    + destruct (ask_lines prompt judge lines) as [[r' rest'] o'].
      injection H as <- <- _. destruct (IH _ _ _ eq_refl) as [H1 H2].
      split; [cbn; lia|exact H2].
Qed.

Lemma tame_ask {A : Type} prompt (judge : string -> verdict A) :
  tame (ask prompt judge).
Proof.
  intros w. unfold ask.
  destruct (ask_lines prompt judge (stdin w)) as [[r rest] o] eqn:E.
  exact (ask_lines_tame _ _ _ _ _ _ E).
Qed.

Lemma tame_print_each l : tame (print_each l).
Proof.
  intros w. rewrite print_each_run. split; [reflexivity|].
  intros e H. discriminate H.
Qed.

Lemma tame_print_all l : tame (print_all l).
Proof.
  induction l as [|s l IH]; [apply tame_ret|].
  apply tame_bind; [apply tame_print|intros _; exact IH].
Qed.

Ltac tame_go :=
  repeat first
    [ apply tame_print | apply tame_get | apply tame_input | apply tame_ask
    | apply tame_ret | apply tame_set_students | apply tame_print_each
    | apply tame_print_all
    | rewrite Student_init_typed; apply tame_lift_ok
    | apply tame_bind; [|intros ?]
    | match goal with
      | |- tame (let _ := _ in _) => cbv zeta
      | |- tame (if ?b then _ else _) => destruct b
      | |- tame (match ?x with _ => _ end) => destruct x
      end ].

Lemma add_new_student_tame : tame add_new_student.
Proof. unfold add_new_student. tame_go. Qed.

Lemma view_all_students_tame : tame view_all_students.
Proof. unfold view_all_students. tame_go. Qed.

Lemma students_search_tame : tame students_search.
Proof. unfold students_search. tame_go. Qed.

Lemma update_and_delete_tame : tame update_and_delete.
Proof. unfold update_and_delete, update_student. tame_go. Qed.

Lemma calculate_avg_and_topper_tame : tame calculate_avg_and_topper.
Proof. unfold calculate_avg_and_topper. tame_go. Qed.

Lemma run_operation_tame op : tame (run_operation op).
Proof.
  destruct op; cbn [run_operation].
  - apply add_new_student_tame.
  - apply view_all_students_tame.
  - apply students_search_tame.
  - apply update_and_delete_tame.
  - apply calculate_avg_and_topper_tame.
Qed.

Lemma read_choice_tame : tame read_choice.
Proof. unfold read_choice. tame_go. Qed.

End Console.

(** ** What a session does *)

(** The operation of the menu a choice stands for. *)
Definition operation_of_choice (choice : string) : option operation :=
  if String.eqb choice "1" then Some OpAdd
  else if String.eqb choice "2" then Some OpView
  else if String.eqb choice "3" then Some OpSearch
  else if String.eqb choice "4" then Some OpUpdateDelete
  else if String.eqb choice "5" then Some OpAggregate
  else None.

Definition menu_output : list out := map Line menu_lines ++ [Prompt choice_prompt].

Section Session.

Lemma reachable_from_trans a b c :
  reachable_from a b -> reachable_from b c -> reachable_from a c.
Proof.
  intros Hab Hbc. induction Hbc as [|w op Hbc IH]; [exact Hab|].
  apply reach_step. exact IH.
Qed.

Lemma print_all_run l w :
  print_all l w
  = (Ok tt, mkWorld (students w) (stdin w) (stdout w ++ map Line l)).
Proof.
  revert w. induction l as [|s l IH]; intros w; simpl.
  - unfold ret. rewrite app_nil_r. destruct w; reflexivity.
  - unfold mbind, print, modify. rewrite IH. cbn [students stdin stdout].
    rewrite <- app_assoc. reflexivity.
Qed.

Lemma read_choice_run w :
  read_choice w
  = (match stdin w with
     | [] => Raise EOFError
     | l :: _ => Ok (strip l)
     end,
     mkWorld (students w) (tl (stdin w)) (stdout w ++ menu_output)).
Proof.
  unfold read_choice, mbind. rewrite print_all_run.
  unfold input, ret, menu_output. cbn [students stdin stdout].
  rewrite <- app_assoc. destruct (stdin w); reflexivity.
Qed.

Lemma save_students_run l d :
  save_students l d
  = match write_fault d with
    | Some e => (Ok tt, [Report (CouldNotSave e)], d)
    | None =>
        (Ok tt, [Line saved_line],
         mkDisk (Some (FIELDNAMES :: map row_of l)) (read_fault d) None)
    end.
Proof.
  unfold save_students. rewrite write_rows_run.
  destruct (write_fault d); reflexivity.
Qed.

(** One round of the loop, by the choice typed. *)
Lemma main_loop_round fuel d w :
  main_loop (S fuel) d w
  = match stdin w with
    | [] =>
        (Raise EOFError,
         mkWorld (students w) [] (stdout w ++ menu_output), d)
    | l :: rest =>
        let w1 := mkWorld (students w) rest (stdout w ++ menu_output) in
        match operation_of_choice (strip l) with
        | Some op =>
            match run_operation op w1 with
            | (Ok _, w2) => main_loop fuel d w2
            | (Raise e, w2) => (Raise e, w2, d)
            end
        | None =>
            if String.eqb (strip l) "6" then
              let '(r, o, d') := save_students (students w) d in
              (Ok tt,
               mkWorld (students w) rest
                 ((stdout w ++ menu_output) ++ o ++ [Line goodbye_line]),
               d')
            else
              main_loop fuel d
                (mkWorld (students w) rest
                   ((stdout w ++ menu_output) ++ [Line invalid_choice_line]))
        end
    end.
Proof.
  cbn [main_loop]. rewrite read_choice_run.
  destruct (stdin w) as [|l rest]; [reflexivity|]. cbn [tl].
  unfold operation_of_choice.
  destruct (String.eqb (strip l) "1"); [reflexivity|].
  destruct (String.eqb (strip l) "2"); [reflexivity|].
  destruct (String.eqb (strip l) "3"); [reflexivity|].
  destruct (String.eqb (strip l) "4"); [reflexivity|].
  destruct (String.eqb (strip l) "5"); [reflexivity|].
  destruct (String.eqb (strip l) "6").
  - cbn [students stdin stdout]. rewrite save_students_run.
    destruct (write_fault d); cbn [students stdin stdout];
      rewrite <- app_assoc; reflexivity.
  - reflexivity.
Qed.

(** Fuel above the number of lines left is never used up: the result
    does not depend on it. *)
Lemma main_loop_fuel fuel : forall fuel' d w,
  (List.length (stdin w) < fuel)%nat ->
  (List.length (stdin w) < fuel')%nat ->
  main_loop fuel d w = main_loop fuel' d w.
Proof.
  induction fuel as [|fuel IH]; intros fuel' d w H H'; [lia|].
  destruct fuel' as [|fuel']; [lia|].
  rewrite !main_loop_round.
  destruct (stdin w) as [|l rest] eqn:E; [reflexivity|].
  cbn [List.length] in H, H'. cbv zeta.
  destruct (operation_of_choice (strip l)) as [op|].
  - destruct (run_operation_tame op
                (mkWorld (students w) rest (stdout w ++ menu_output)))
      as [Hlen _].
    destruct (run_operation op _) as [[u|e] w2]; [|reflexivity].
    cbn [snd stdin] in Hlen. apply IH; lia.
  - destruct (String.eqb (strip l) "6"); [reflexivity|].
    apply IH; cbn [stdin]; lia.
Qed.

(** The outcome of the loop: it ends by choice 6, with the list it then
    holds saved, or by [EOFError] at the end of the lines, with the file
    untouched; the list it ends with is reached from the one it started
    with by operations of the menu. *)
Lemma main_loop_outcome fuel : forall d w r w' d',
  (List.length (stdin w) < fuel)%nat ->
  main_loop fuel d w = (r, w', d') ->
  reachable_from (students w) (students w')
  /\ ((r = Ok tt
       /\ exists o, save_students (students w') d = (Ok tt, o, d'))
      \/ (r = Raise EOFError /\ stdin w' = [] /\ d' = d)).
Proof.
  induction fuel as [|fuel IH]; intros d w r w' d' Hlen H; [lia|].
  rewrite main_loop_round in H.
  destruct (stdin w) as [|l rest] eqn:E.
  - injection H as <- <- <-. cbn [students stdin].
    split; [apply reach_start|]. right. repeat split.
  - cbn [List.length] in Hlen. cbv zeta in H.
    destruct (operation_of_choice (strip l)) as [op|].
    + set (w1 := mkWorld (students w) rest (stdout w ++ menu_output)) in *.
      assert (Hstep : reachable_from (students w)
                        (students (snd (run_operation op w1)))).
      { apply (reach_step (students w) w1 op). apply reach_start. }
      destruct (run_operation_tame op w1) as [Hl He].
      destruct (run_operation op w1) as [[u|e] w2]; cbn [fst snd] in *.
      * destruct (IH d w2 r w' d') as [Hr Ho];
          [unfold w1 in Hl; cbn [stdin] in Hl; lia|exact H|].
        split; [exact (reachable_from_trans _ _ _ Hstep Hr)|exact Ho].
      * injection H as <- <- <-. destruct (He e eq_refl) as [-> Hnil].
        split; [exact Hstep|]. right. repeat split. exact Hnil.
    + destruct (String.eqb (strip l) "6").
      * rewrite save_students_run in H.
        destruct (write_fault d) eqn:Ew; injection H as <- <- <-;
          cbn [students]; (split; [apply reach_start|]); left;
          (split; [reflexivity|]); rewrite save_students_run, Ew;
          eexists; reflexivity.
      * apply IH in H; [|cbn [stdin]; lia]. destruct H as [Hr Ho].
        cbn [students] in Hr. split; [exact Hr|exact Ho].
Qed.

End Session.

Section SessionProperties.


Lemma reachable_from_unique start l :
  unique_ids start -> reachable_from start l -> unique_ids l.
Proof.
  intros Hu Hr. induction Hr as [|w op Hr IH]; [exact Hu|].
  apply run_operation_unique, IH.
Qed.

Definition disk_one_student : disk :=
  mkDisk (Some [FIELDNAMES; ["1001"; "Ann"; "20"; "10th"; "3.5"]]) None None.

Definition session_lines : list string :=
  ["1"; "Bob"; "x"; "21"; "11th"; "9"; "3.25"; "7"; "4"; "1001"; "d";
   " 6 "; "never read"].



(** X2.  When the list [load_students] returned has pairwise distinct
    ids, so has the list a session ends with; and when the session ends
    by choice 6 and the file can be written, the file holds the header
    and one row of five cells per student, in the order of the list,
    whose first cells are pairwise distinct. *)
Theorem main_keeps_ids_unique (d : disk) (lines : list string)
    (loaded_list : list Student) (o : list out) (d1 : disk)
    (r : result unit) (w : world) (d' : disk) :
  load_students d = (Ok loaded_list, o, d1) ->
  unique_ids loaded_list ->
  main d lines = (r, w, d') ->
  unique_ids (students w)
  /\ (r = Ok tt -> write_fault d1 = None ->
      content d' = Some (FIELDNAMES :: map row_of (students w))
      /\ NoDup (map (hd "") (map row_of (students w)))
      /\ Forall (fun cells => List.length cells = 5%nat)
           (map row_of (students w))).
Proof.
  intros El Hu Hm.
  unfold main in Hm. rewrite El in Hm.
  destruct (main_loop_outcome _ _ _ _ _ _
              ltac:(cbn [stdin]; apply Nat.lt_succ_diag_r) Hm)
    as [Hr Ho].
  cbn [students] in Hr.
  assert (Hw : unique_ids (students w))
    by exact (reachable_from_unique _ _ Hu Hr).
  split; [exact Hw|]. intros -> Hwf.
  destruct Ho as [[_ [o' Hs]]|[Hx _]]; [|discriminate Hx].
  rewrite save_students_run, Hwf in Hs. injection Hs as _ <-.
  split; [reflexivity|]. split.
  - rewrite map_map. exact Hw.
  - apply Forall_forall. intros cells Hc. apply in_map_iff in Hc.
    destruct Hc as [s [<- _]]. reflexivity.
Qed.

Lemma main_keeps_ids_unique_witness :
  exists w d',
    main disk_one_student session_lines = (Ok tt, w, d')
    /\ unique_ids (students w)
    /\ content d' = Some [FIELDNAMES; ["1002"; "Bob"; "21"; "11th"; "3.25"]].
Proof.
  destruct (main disk_one_student session_lines) as [[r w] d'] eqn:E.
  assert (El : load_students disk_one_student
               = (Ok [mkStudent "1001" "Ann" 20 "10th" 3.5%float], [],
                  disk_one_student)) by (vm_compute; reflexivity).
  assert (Hu : unique_ids [mkStudent "1001" "Ann" 20 "10th" 3.5%float]).
  { unfold unique_ids. cbn [map id]. constructor; [intros []|constructor]. }
  destruct (main_keeps_ids_unique disk_one_student session_lines _ _ _
              r w d' El Hu E) as [Hw _].
  vm_compute in E. injection E as <- <- <-.
  eexists _, _. split; [reflexivity|]. split; [exact Hw|reflexivity].
Defined.



End SessionProperties.

(** * More on adding *)




Section Adding.


Lemma in_gpa_range_numeric x : in_gpa_range x = true -> numeric x.
Proof.
  unfold in_gpa_range, numeric, PrimFloat.is_nan. intros H.
  apply andb_prop in H. destruct H as [H _].
  rewrite leb_spec in H. rewrite eqb_spec.
  unfold SFleb, SFeqb in *.
  destruct (Prim2SF x) as [s|s| |s m e] eqn:E.
  - reflexivity.
  - destruct s; reflexivity.
  - cbn in H. discriminate H.
  - cbn. destruct s; rewrite Z.compare_refl, Pos.compare_cont_refl;
      reflexivity.
Qed.



(** X4.  Whatever is typed, and also when the lines run out,
    [add_new_student] leaves the list as it was or appends exactly one
    student to it; the student appended has the text of [get_next_id] of
    the list as its id, which is the id of no student of the list, a name
    that is not empty, an age above 0 and a gpa that is a number from 0.0
    to 4.0. *)
Theorem add_new_student_effect (w : world) :
  students (snd (add_new_student w)) = students w
  \/ exists s,
       students (snd (add_new_student w)) = (students w ++ [s])%list
       /\ id s = str_of_int (get_next_id (students w))
       /\ (forall t, In t (students w) -> id t <> id s)
       /\ name s <> ""
       /\ 0 < age s
       /\ in_gpa_range (gpa s) = true
       /\ numeric (gpa s).
Proof.
  destruct (add_new_student_roster w) as [E|[n [a [g [x [E [Hn [Ha Hx]]]]]]]].
  - left. exact E.
  - right. eexists. split; [exact E|]. cbn [id name age gpa].
    split; [reflexivity|]. split.
    { intros t Ht. apply next_id_fresh. exact Ht. }
    split; [exact Hn|]. split; [exact Ha|].
    split; [exact Hx|apply in_gpa_range_numeric; exact Hx].
Qed.




(** X6.  Ids are given out in sequence: once a student with the id
    that [get_next_id] computed has been appended, [get_next_id] is one
    more. *)
Theorem get_next_id_sequence (l : list Student) (s : Student) :
  id s = str_of_int (get_next_id l) ->
  get_next_id (l ++ [s]) = get_next_id l + 1.
Proof.
  intros Hs.
  assert (E : get_next_id (l ++ [s])
              = fold_left try_int_max (l ++ [s]) 0 + 1)
    by (destruct l; reflexivity).
  rewrite E, fold_left_app. cbn [fold_left]. unfold try_int_max at 1.
  rewrite Hs, int_of_str_of_int. destruct l as [|t l]; [reflexivity|].
  cbn [get_next_id fold_left]. lia.
Qed.

Lemma get_next_id_sequence_witness :
  get_next_id (roster_1001_1002_1050
               ++ [mkStudent "1051" "Eve" 19 "12th" 3.75%float])
  = 1051 + 1.
Proof.
  apply (get_next_id_sequence roster_1001_1002_1050
           (mkStudent "1051" "Eve" 19 "12th" 3.75%float)).
  reflexivity.
Defined.

End Adding.

(** * More on updating and deleting *)



(** The student an update leaves, by the answers: a blank answer keeps
    the field. *)
Definition updated (s : Student) (new_name : string) (new_age : option Z)
    (new_grade : string) (new_gpa : option float) : Student :=
  mkStudent (id s)
    (if is_empty new_name then name s else new_name)
    (match new_age with Some v => v | None => age s end)
    (if is_empty new_grade then grade s else new_grade)
    (match new_gpa with Some x => x | None => gpa s end).

Section Updating2.

Lemma replace_at_middle (pre : list Student) s s' post :
  replace_at (List.length pre) s' (pre ++ s :: post)
  = (pre ++ s' :: post)%list.
Proof.
  unfold replace_at. induction pre as [|t r IH]; simpl; [reflexivity|].
  f_equal. exact IH.
Qed.


Variable i : nat.
Variable l0 : list Student.
Variable s0 : Student.
Hypothesis Hi : nth_error l0 i = Some s0.











End Updating2.

Section UpdateDeleteProperties.

Ltac run_io :=
  unfold mbind, print, modify, get, input, set_students, lift, ret, ask;
  cbn [students stdin stdout tl fst snd].


Lemma judge_new_age_accepts b oa :
  judge_new_age b = Accept oa <->
  (strip b = "" /\ oa = None)
  \/ (strip b <> "" /\ exists v, int_of_str (strip b) = Some v /\ 0 < v
                                 /\ oa = Some v).
Proof.
  unfold judge_new_age. destruct (strip b) as [|c r] eqn:E; cbn [is_empty].
  - split.
    + intros H. injection H as <-. left. split; reflexivity.
    + intros [[_ ->]|[H _]]; [reflexivity|congruence].
  - destruct (int_of_str (String c r)) as [n|].
    + destruct (Z.ltb_spec 0 n); split.
      * intros H'. injection H' as <-. right. split; [discriminate|].
        exists n. repeat split. assumption.
      * intros [[H' _]|[_ [v [Ev [_ ->]]]]]; [discriminate H'|].
        injection Ev as ->. reflexivity.
      * discriminate.
      * intros [[H' _]|[_ [v [Ev [Hv _]]]]]; [discriminate H'|].
        injection Ev as ->. lia.
    + split; [discriminate|].
      intros [[H' _]|[_ [v [Ev _]]]]; [discriminate H'|discriminate Ev].
Qed.

Lemma judge_new_gpa_accepts b og :
  judge_new_gpa b = Accept og <->
  (strip b = "" /\ og = None)
  \/ (strip b <> "" /\ exists x, float_of_str (strip b) = Some x
                                 /\ in_gpa_range x = true /\ og = Some x).
Proof.
  unfold judge_new_gpa. destruct (strip b) as [|c r] eqn:E; cbn [is_empty].
  - split.
    + intros H. injection H as <-. left. split; reflexivity.
    + intros [[_ ->]|[H _]]; [reflexivity|congruence].
  - destruct (float_of_str (String c r)) as [y|].
    + destruct (in_gpa_range y) eqn:Ey; split.
      * intros H'. injection H' as <-. right. split; [discriminate|].
        exists y. repeat split. exact Ey.
      * intros [[H' _]|[_ [v [Ev [_ ->]]]]]; [discriminate H'|].
        injection Ev as ->. reflexivity.
      * discriminate.
      * intros [[H' _]|[_ [v [Ev [Hv _]]]]]; [discriminate H'|].
        injection Ev as ->. congruence.
    + split; [discriminate|].
      intros [[H' _]|[_ [v [Ev _]]]]; [discriminate H'|discriminate Ev].
Qed.

(** X8.  An update whose answers are accepted at once: with action U,
    the student found is replaced, in its place, by the student with the
    same id in which each field is the stripped answer when that answer
    is not blank and the old value when it is; an age is accepted when it
    reads as an integer above 0, a gpa when it reads as a number from 0.0
    to 4.0.  The prompts show the values the student had before. *)
Theorem update_and_delete_update (w : world) (l l2 a b c d : string)
    (rest : list string) (pre post : list Student) (s : Student)
    (oa : option Z) (og : option float) :
  stdin w = l :: l2 :: a :: b :: c :: d :: rest ->
  students w = (pre ++ s :: post)%list ->
  (forall t, In t pre -> id t <> strip l) -> id s = strip l ->
  upper (strip l2) = "U" ->
  ((strip b = "" /\ oa = None)
   \/ (strip b <> "" /\ exists v, int_of_str (strip b) = Some v /\ 0 < v
                                  /\ oa = Some v)) ->
  ((strip d = "" /\ og = None)
   \/ (strip d <> "" /\ exists x, float_of_str (strip d) = Some x
                                  /\ in_gpa_range x = true /\ og = Some x)) ->
  update_and_delete w
  = (Ok tt,
     mkWorld (pre ++ updated s (strip a) oa (strip c) og :: post) rest
       (stdout w
        ++ [Prompt id_prompt; Line found_banner; Line (Student_str s);
            Prompt action_prompt; Line update_banner;
            Prompt ("New Name (" ++ name s ++ "): ");
            Prompt ("New Age (" ++ str_of_int (age s) ++ "): ");
            Prompt ("New Grade (" ++ grade s ++ "): ");
            Prompt ("New GPA (" ++ format_2f (gpa s) ++ "): ");
            Line (updated_line (strip l)
                    (updated s (strip a) oa (strip c) og))])).
Proof.
  intros Hin Hst Hpre Hid HU Hb Hd.
  apply judge_new_age_accepts in Hb. apply judge_new_gpa_accepts in Hd.
  destruct s as [sid sname sage sgrade sgpa].
  unfold update_and_delete. run_io. rewrite Hin. run_io.
  rewrite Hst, (locate_first _ _ _ _ Hpre Hid). run_io.
  rewrite HU. cbn [String.eqb Ascii.eqb Bool.eqb].
  unfold update_student, updated, updated_line. run_io.
  destruct (is_empty (strip a)); run_io; cbn [ask_lines];
    cbn [with_name id name age grade gpa]; rewrite Hb;
    destruct oa as [v|]; run_io; rewrite ?replace_at_middle;
    cbn [with_name with_age id name age grade gpa];
    destruct (is_empty (strip c)); run_io; cbn [ask_lines];
    rewrite ?replace_at_middle;
    cbn [with_name with_age with_grade id name age grade gpa]; rewrite Hd;
    destruct og as [x|]; run_io; rewrite ?replace_at_middle;
    cbn [with_name with_age with_grade with_gpa id name age grade gpa];
    repeat rewrite <- app_assoc; reflexivity.
Qed.

Definition world_update : world :=
  mkWorld roster_1001_1002_1050
    ["1002"; "u"; " Bobby "; ""; "12th"; "3.5"; "left"] [].

Lemma update_and_delete_update_witness :
  update_and_delete world_update
  = (Ok tt,
     mkWorld
       [mkStudent "1001" "Ann" 20 "10th" 3.5%float;
        mkStudent "1002" "Bobby" 21 "12th" 3.5%float;
        mkStudent "1050" "Cid" 22 "12th" 2.5%float]
       ["left"]
       [Prompt id_prompt; Line found_banner;
        Line (Student_str (mkStudent "1002" "Bob" 21 "11th" 3%float));
        Prompt action_prompt; Line update_banner;
        Prompt "New Name (Bob): "; Prompt "New Age (21): ";
        Prompt "New Grade (11th): "; Prompt "New GPA (3.00): ";
        Line (updated_line "1002"
                (mkStudent "1002" "Bobby" 21 "12th" 3.5%float))]).
Proof.
  rewrite (update_and_delete_update world_update
             "1002" "u" " Bobby " "" "12th" "3.5" ["left"]
             [mkStudent "1001" "Ann" 20 "10th" 3.5%float]
             [mkStudent "1050" "Cid" 22 "12th" 2.5%float]
             (mkStudent "1002" "Bob" 21 "11th" 3%float)
             None (Some 3.5%float)).
  - vm_compute. reflexivity.
  - reflexivity.
  - reflexivity.
  - intros t [<-|[]]. discriminate.
  - reflexivity.
  - reflexivity.
  - left. split; reflexivity.
  - right. split; [discriminate|]. exists 3.5%float.
    split; [vm_compute; reflexivity|]. split; reflexivity.
Defined.

End UpdateDeleteProperties.

(** * More on the file *)

Definition blank_rows (rows : list (list string)) : Prop :=
  Forall (fun cells => cells = []) rows.

Definition read_diagnostic (d : disk) : list out :=
  match read_fault d with
  | Some e => [Report (ErrorDuringLoading e)]
  | None => []
  end.

Section FileProperties.

Lemma DictReader_next_blank rows fault :
  blank_rows rows ->
  DictReader_next rows fault
  = Raise (match fault with Some e => e | None => StopIteration end).
Proof.
  induction 1 as [|cells rows Hc _ IH]; [reflexivity|].
  subst cells. exact IH.
Qed.

Lemma DictReader_next_first blanks first rows fault :
  blank_rows blanks -> first <> [] ->
  DictReader_next (blanks ++ first :: rows) fault
  = Ok (DictReader_row FIELDNAMES first, rows).
Proof.
  intros Hb Hf. induction Hb as [|cells blanks Hc _ IH].
  - apply DictReader_next_header. exact Hf.
  - subst cells. exact IH.
Qed.

Lemma expected_students_length rows :
  (List.length (expected_students rows) <= List.length rows)%nat.
Proof.
  unfold expected_students. induction rows as [|cells rows IH];
    [apply Nat.le_refl|].
  cbn [flat_map List.length]. rewrite length_app.
  assert (H : (List.length (fst (expected_of_row cells)) <= 1)%nat).
  { destruct cells as [|c1 [|c2 [|c3 [|c4 [|c5 more]]]]]; cbn; lia. }
  lia.
Qed.

(** X9.  A file that does not exist.  When it can be created, it is
    created with the header line alone and the list returned is empty;
    loading the file just created returns the empty list again.  When it
    cannot, the diagnostic of the creation is printed, there is still no
    file, and the list returned is empty as well. *)
Theorem load_students_missing_file (d : disk) :
  content d = None ->
  match write_fault d with
  | None =>
      exists d',
        load_students d = (Ok [], [], d')
        /\ content d' = Some [FIELDNAMES]
        /\ load_students d' = (Ok [], read_diagnostic d, d')
  | Some e => load_students d = (Ok [], [Report (ErrorCreatingFile e)], d)
  end.
Proof.
  intros Hc. destruct (write_fault d) as [e|] eqn:Hw.
  - unfold load_students. rewrite Hc, Hw. reflexivity.
  - exists (mkDisk (Some [FIELDNAMES]) (read_fault d) None).
    split; [unfold load_students; rewrite Hc, Hw; reflexivity|].
    split; [reflexivity|].
    rewrite (load_students_rows
               (mkDisk (Some [FIELDNAMES]) (read_fault d) None)
               FIELDNAMES [] eq_refl) by discriminate.
    reflexivity.
Qed.

Lemma load_students_missing_file_witness :
  exists d',
    load_students empty_disk = (Ok [], [], d')
    /\ content d' = Some [FIELDNAMES]
    /\ load_students d' = (Ok [], [], d').
Proof.
  exact (load_students_missing_file empty_disk eq_refl).
Defined.

(** X10.  A file that exists and holds no line, or blank lines only:
    skipping the header fails, with [StopIteration] or with the fault of
    the file, the diagnostic of loading is printed with that exception,
    and the list returned is empty.  The file is not recreated. *)
Theorem load_students_no_header (d : disk) (rows : list (list string)) :
  content d = Some rows -> blank_rows rows ->
  load_students d
  = (Ok [],
     [Report (ErrorDuringLoading
                (match read_fault d with
                 | Some e => e
                 | None => StopIteration
                 end))],
     d).
Proof.
  intros Hc Hb. unfold load_students. rewrite Hc.
  unfold try_catch, mbind, lift, get, ret, print_loading, modify.
  rewrite (DictReader_next_blank _ _ Hb). reflexivity.
Qed.

Lemma load_students_no_header_witness :
  load_students (mkDisk (Some [[]; []]) None None)
  = (Ok [], [Report (ErrorDuringLoading StopIteration)],
     mkDisk (Some [[]; []]) None None).
Proof.
  apply (load_students_no_header (mkDisk (Some [[]; []]) None None)
           [[]; []] eq_refl).
  repeat constructor.
Defined.

(** X11.  The line skipped as the header is the first line that is not
    blank, whatever it holds: it is never compared with the field names.
    The students returned are those of the lines after it, so that a
    file whose first such line is a record loses that record. *)
Theorem load_students_skips_first_line (d : disk)
    (blanks : list (list string)) (first : list string)
    (rows : list (list string)) :
  content d = Some (blanks ++ first :: rows)%list ->
  blank_rows blanks -> first <> [] ->
  load_students d
  = (Ok (expected_students rows),
     (expected_output rows ++ read_diagnostic d)%list, d).
Proof.
  intros Hc Hb Hf. unfold load_students. rewrite Hc.
  unfold try_catch, mbind, lift, get, ret, print_loading, modify.
  rewrite (DictReader_next_first _ _ _ _ Hb Hf), load_rows_run. cbn [snd].
  unfold read_diagnostic.
  destruct (read_fault d); cbn; rewrite ?app_nil_r; reflexivity.
Qed.

Definition disk_no_header : disk :=
  mkDisk (Some [[]; ["1001"; "Ann"; "20"; "10th"; "3.5"];
                ["1002"; "Bob"; "21"; "11th"; "3.0"]]) None None.

Lemma load_students_skips_first_line_witness :
  load_students disk_no_header
  = (Ok [mkStudent "1002" "Bob" 21 "11th" 3%float], [], disk_no_header).
Proof.
  rewrite (load_students_skips_first_line disk_no_header [[]]
             ["1001"; "Ann"; "20"; "10th"; "3.5"]
             [["1002"; "Bob"; "21"; "11th"; "3.0"]] eq_refl).
  - vm_compute. reflexivity.
  - repeat constructor.
  - discriminate.
Defined.


(** X13.  A session that only loads and saves rewrites the file: when
    the first line typed is 6, on a file with a header line that can be
    written, the file afterwards holds the field names and the rows of
    the students loaded, and nothing else.  The header it had, its blank
    lines, its lines of fewer than five cells and the cells after the
    fifth are gone, and a cell that did not read as a number holds 0 or
    0.0. *)
Theorem main_exit_rewrites_file (d : disk) (header : list string)
    (rows : list (list string)) (l : string) (rest : list string) :
  content d = Some (header :: rows) -> header <> [] ->
  write_fault d = None -> strip l = "6" ->
  exists w d',
    main d (l :: rest) = (Ok tt, w, d')
    /\ students w = expected_students rows
    /\ stdin w = rest
    /\ content d' = Some (FIELDNAMES :: map row_of (expected_students rows))
    /\ (List.length (expected_students rows) <= List.length rows)%nat.
Proof.
  intros Hc Hh Hw Hl. unfold main.
  rewrite (load_students_rows d header rows Hc Hh).
  rewrite main_loop_round. cbn [stdin students stdout].
  rewrite Hl. cbn [operation_of_choice String.eqb Ascii.eqb Bool.eqb].
  replace (operation_of_choice "6") with (@None operation) by reflexivity.
  rewrite save_students_run, Hw.
  eexists _, _. split; [reflexivity|]. cbn [students stdin].
  split; [reflexivity|]. split; [reflexivity|]. split; [reflexivity|].
  apply expected_students_length.
Qed.

Definition disk_untidy : disk :=
  mkDisk (Some [["id"; "name"]; []; ["1001"; "Ann"; "x"; "10th"; "3.5"; "y"];
                ["1002"; "Bob"]]) None None.

Lemma main_exit_rewrites_file_witness :
  exists w d',
    main disk_untidy [" 6"] = (Ok tt, w, d')
    /\ content d'
       = Some [FIELDNAMES; ["1001"; "Ann"; "0"; "10th"; "3.5"]].
Proof.
  destruct (main_exit_rewrites_file disk_untidy ["id"; "name"]
              [[]; ["1001"; "Ann"; "x"; "10th"; "3.5"; "y"]; ["1002"; "Bob"]]
              " 6" [] eq_refl ltac:(discriminate) eq_refl eq_refl)
    as [w [d' [Hm [_ [_ [Hd _]]]]]].
  exists w, d'. split; [exact Hm|]. rewrite Hd. vm_compute. reflexivity.
Defined.

End FileProperties.

(** * Viewing *)

Definition view_banner : string := nl ++ "--- All Students Records ---".
Definition no_students_line : string := "No student records found.".
Definition view_header : string :=
  "ID: ID    | Name: NAME                 | Age: AGE | Grade: GRADE | GPA: GPA ".

Section Viewing.

Lemma length_spaces n : String.length (spaces n) = n.
Proof. induction n as [|n IH]; [reflexivity|]. cbn. rewrite IH. reflexivity. Qed.

Lemma length_append (a b : string) :
  String.length (a ++ b) = (String.length a + String.length b)%nat.
Proof.
  induction a as [|c a IH]; [reflexivity|]. cbn. rewrite IH. reflexivity.
Qed.

Lemma length_ljust w s :
  String.length (ljust w s) = Nat.max w (String.length s).
Proof.
  unfold ljust. rewrite length_append, length_spaces. lia.
Qed.

(** X14.  [view_all_students] reads nothing and changes nothing.  On the
    empty list it prints its banner and the no-records line; otherwise
    the banner, the line of column titles, a rule, one line per student
    in the order of the list, and a rule. *)
Theorem view_all_students_run (w : world) :
  view_all_students w
  = (Ok tt,
     mkWorld (students w) (stdin w)
       (stdout w
        ++ Line view_banner
           :: match students w with
              | [] => [Line no_students_line]
              | _ :: _ =>
                  Line view_header :: Line dashes
                    :: (map (fun s => Line (Student_str s)) (students w)
                        ++ [Line dashes])%list
              end)).
Proof.
  unfold view_all_students, mbind, print, modify, get.
  cbn [students stdin stdout].
  destruct (students w) as [|s r] eqn:E;
    cbn [students stdin stdout]; rewrite ?print_each_run;
    cbn [students stdin stdout]; repeat rewrite <- app_assoc; reflexivity.
Qed.

(** X15.  A field is padded to its column and never cut: the line of a
    student is as long as its labels, its four padded fields and its gpa
    with two decimals.  Every such line is longer than the rule of 65
    dashes printed around the table. *)
Theorem Student_str_length (s : Student) :
  String.length (Student_str s)
  = (39 + Nat.max 5 (String.length (id s))
     + Nat.max 20 (String.length (name s))
     + Nat.max 3 (String.length (str_of_int (age s)))
     + Nat.max 5 (String.length (grade s))
     + String.length (format_2f (gpa s)))%nat
  /\ (String.length dashes < String.length (Student_str s))%nat.
Proof.
  assert (H : String.length (Student_str s)
              = (39 + Nat.max 5 (String.length (id s))
                 + Nat.max 20 (String.length (name s))
                 + Nat.max 3 (String.length (str_of_int (age s)))
                 + Nat.max 5 (String.length (grade s))
                 + String.length (format_2f (gpa s)))%nat).
  { unfold Student_str. rewrite !length_append, !length_ljust.
    cbn [String.length]. lia. }
  split; [exact H|]. rewrite H.
  replace (String.length dashes) with 65%nat by reflexivity. lia.
Qed.

End Viewing.

(** * Adding, then deleting *)

Section AddThenDelete.

Ltac run_io :=
  unfold mbind, print, modify, get, input, set_students, lift, ret, ask;
  cbn [students stdin stdout tl fst snd].

(** X16.  A student just added is deleted by the id shown for it: when
    [add_new_student] has appended a student, and the next operation is
    [update_and_delete] with the new id typed and action D, the student
    found is the one appended, since no other has that id, and the list
    is again the list before the addition. *)
Theorem add_then_delete (w w1 : world) (l l2 : string)
    (rest : list string) :
  add_new_student w = (Ok tt, w1) ->
  students w1 <> students w ->
  stdin w1 = l :: l2 :: rest ->
  strip l = str_of_int (get_next_id (students w)) ->
  upper (strip l2) = "D" ->
  students (snd (update_and_delete w1)) = students w
  /\ stdin (snd (update_and_delete w1)) = rest.
Proof.
  intros Hadd Hnew Hin Hid HD.
  pose proof (add_new_student_roster w) as Hr. cbv zeta in Hr.
  rewrite Hadd in Hr. cbn [snd] in Hr.
  destruct Hr as [Hr|[n [a [g [p [Hr _]]]]]]; [destruct (Hnew Hr)|].
  assert (Hpre : forall t, In t (students w) -> id t <> strip l).
  { intros t Ht. rewrite Hid. apply next_id_fresh. exact Ht. }
  unfold update_and_delete. run_io. rewrite Hin. run_io. rewrite Hr.
  rewrite (locate_first (strip l) (students w)
             (mkStudent (str_of_int (get_next_id (students w))) n a g p) []
             Hpre (eq_sym Hid)).
  run_io. rewrite HD. cbn [String.eqb Ascii.eqb Bool.eqb]. run_io.
  rewrite remove_at_middle, app_nil_r. split; reflexivity.
Qed.

Definition world_add_delete : world :=
  mkWorld roster_1001_1002_1050
    ["Dan"; "23"; "9th"; "3.9"; " 1051 "; "d"; "left"] [].

Lemma add_then_delete_witness :
  students (snd (update_and_delete (snd (add_new_student world_add_delete))))
  = roster_1001_1002_1050
  /\ stdin (snd (update_and_delete (snd (add_new_student world_add_delete))))
     = ["left"].
Proof.
  apply (add_then_delete world_add_delete
           (snd (add_new_student world_add_delete)) " 1051 " "d" ["left"]).
  - vm_compute. reflexivity.
  - vm_compute. intros K. discriminate K.
  - vm_compute. reflexivity.
  - vm_compute. reflexivity.
  - vm_compute. reflexivity.
Defined.

End AddThenDelete.
